(** * EmployeeDatabase (main.py): cleaning and ingestion of employee records

    A shallow embedding of [EmployeeDatabase]: [create_collection],
    [clean_data], [index_data], [search_by_column], [get_emp_count],
    [del_emp_by_id] and [get_dep_facet].

    - A DataFrame is a Python object: it lives in an object store and the
      methods receive a reference to it, so that assignment to a column is
      visible through every alias.
    - Text read from the CSV is decoded as ISO-8859-1: one character per
      byte, which is what [ascii] is.
    - Floats are IEEE binary64 values ([spec_float], precision 53,
      exponent bound 1024); conversion from a decimal literal rounds to
      nearest-even, as Python's [float] does.
    - The search engine is an interface ([Engine]); every call made through
      the client is recorded in the state. *)

From Stdlib Require Import ZArith Ascii String SpecFloat.
From stdpp Require Import base decidable option list strings gmap.

Local Open Scope string_scope.
Local Open Scope list_scope.

(** ** Characters *)

Module Char.

Definition code (c : ascii) : N := N_of_ascii c.

Definition between (lo hi : N) (c : ascii) : bool :=
  ((lo <=? code c) && (code c <=? hi))%N.

Definition is_digit (c : ascii) : bool := between 48 57 c.

(** [str.isalnum] on the Latin-1 range: letters, decimal
    digits, and the characters with a digit or numeric value. *)
Definition is_alnum (c : ascii) : bool :=
  is_digit c
  || between 65 90 c || between 97 122 c
  || (code c =? 170)%N || (code c =? 181)%N || (code c =? 186)%N
  || between 178 179 c || (code c =? 185)%N
  || between 188 190 c
  || between 192 214 c || between 216 246 c || between 248 255 c.

(** [str.isspace] on the Latin-1 range. *)
Definition is_space (c : ascii) : bool :=
  between 9 13 c || between 28 32 c
  || (code c =? 133)%N || (code c =? 160)%N.

(** The class [\w] of [re] on [str] patterns: alphanumeric, or the
    underscore. *)
Definition is_word (c : ascii) : bool :=
  is_alnum c || (code c =? 95)%N.

Definition lower (c : ascii) : ascii :=
  if between 65 90 c then ascii_of_N (code c + 32) else c.

End Char.

(** ** Regular expressions of the script

    The four patterns of [clean_data] each match exactly one character and
    are replaced by the empty string, so that [re.sub] deletes the matching
    characters. *)

Inductive pattern :=
  | Literal (c : ascii)          (* r'\$'   r','   '%' *)
  | NotWordNotSpace.             (* r'[^\w\s]' *)

Definition matches (p : pattern) (c : ascii) : bool :=
  match p with
  | Literal d => bool_decide (c = d)
  | NotWordNotSpace => negb (Char.is_word c) && negb (Char.is_space c)
  end.

Fixpoint delete_chars (p : ascii → bool) (s : string) : string :=
  match s with
  | EmptyString => EmptyString
  | String c r => if p c then delete_chars p r else String c (delete_chars p r)
  end.

(** [re.sub(p, '', s)] *)
Definition re_sub_empty (p : pattern) (s : string) : string :=
  delete_chars (matches p) s.

Fixpoint string_forall (p : ascii → bool) (s : string) : bool :=
  match s with
  | EmptyString => true
  | String c r => p c && string_forall p r
  end.

Definition contains_char (c : ascii) (s : string) : bool :=
  negb (string_forall (λ d, negb (bool_decide (d = c))) s).

(** ** Floats *)

Module Float.

#[local] Open Scope Z_scope.

Definition t := spec_float.

Definition prec : Z := 53.
Definition emax : Z := 1024.

Definition nan : t := S754_nan.

Definition is_nan (x : t) : bool :=
  match x with S754_nan => true | _ => false end.

(** [float(n)] for an integer [n]. *)
Definition of_Z (n : Z) : t := binary_normalize prec emax n 0 false.

(** The binary64 nearest to [(-1)^neg * m * 10^e]. *)
Definition of_decimal (neg : bool) (m : Z) (e : Z) : t :=
  match m with
  | Z0 => S754_zero neg
  | Zpos p =>
      match e with
      | Zneg k =>
          SFdiv prec emax (S754_finite neg p 0)
                (S754_finite false (Pos.pow 10 k) 0)
      | _ => binary_normalize prec emax
               (if neg then - (m * 10 ^ e) else m * 10 ^ e) 0 neg
      end
  | Zneg _ => S754_nan
  end.

(** *** The literal grammar of [float(str)] *)

Definition digit_val (c : ascii) : Z := Z.of_N (Char.code c) - 48.

(** [digit (["_"] digit)*]: the digits read, and what follows them. *)
Fixpoint digitpart (s : list ascii) : list ascii * list ascii :=
  match s with
  | c :: s' =>
      if Char.is_digit c then
        match s' with
        | u :: ((d :: _) as s'') =>
            if bool_decide (u = "_"%char) && Char.is_digit d then
              let (ds, r) := digitpart s'' in (c :: ds, r)
            else
              let (ds, r) := digitpart s' in (c :: ds, r)
        | _ => let (ds, r) := digitpart s' in (c :: ds, r)
        end
      else ([], s)
  | [] => ([], [])
  end.

Definition digits_val (ds : list ascii) : Z :=
  fold_left (λ acc c, 10 * acc + digit_val c) ds 0.

Definition read_sign (s : list ascii) : bool * list ascii :=
  match s with
  | c :: r =>
      if bool_decide (c = "-"%char) then (true, r)
      else if bool_decide (c = "+"%char) then (false, r)
      else (false, s)
  | [] => (false, [])
  end.

Definition read_exponent (s : list ascii) : option Z :=
  match s with
  | [] => Some 0
  | c :: r =>
      if bool_decide (Char.lower c = "e"%char) then
        let (neg, r1) := read_sign r in
        match digitpart r1 with
        | ((_ :: _) as ds, []) =>
            Some (if neg then - digits_val ds else digits_val ds)
        | _ => None
        end
      else None
  end.

Definition read_number (neg : bool) (s : list ascii) : option t :=
  let (ip, r1) := digitpart s in
  let (fp, r2) :=
    match r1 with
    | c :: r => if bool_decide (c = "."%char) then digitpart r else ([], r1)
    | [] => ([], [])
    end in
  match (ip ++ fp)%list with
  | [] => None
  | ds =>
      e ← read_exponent r2;
      Some (of_decimal neg (digits_val ds) (e - Z.of_nat (length fp)))
  end.

(** The whitespace that [float] removes at both ends: the ASCII whitespace
    of C (tab to carriage return, and space) and, of the characters above
    127, the two that [str.isspace] accepts. The separators 28 to 31 are
    whitespace for [str.isspace] and not for [float]. *)
Definition is_float_space (c : ascii) : bool :=
  Char.between 9 13 c || (Char.code c =? 32)%N
  || (Char.code c =? 133)%N || (Char.code c =? 160)%N.

Definition strip (s : list ascii) : list ascii :=
  let ltrim := fix go (l : list ascii) :=
    match l with
    | c :: r => if is_float_space c then go r else l
    | [] => []
    end in
  rev (ltrim (rev (ltrim s))).

(** [float(s)] for a string [s]; [None] stands for [ValueError]. *)
Definition of_string (s : string) : option t :=
  let (neg, body) := read_sign (strip (list_ascii_of_string s)) in
  let word := string_of_list_ascii (map Char.lower body) in
  if bool_decide (word = "nan") then Some S754_nan
  else if bool_decide (word = "inf") || bool_decide (word = "infinity")
  then Some (S754_infinity neg)
  else read_number neg body.

End Float.

#[global] Instance spec_float_eq_dec : EqDecision spec_float.
Proof. solve_decision. Defined.

(** ** [repr] of a string

    Quoted with the single quote, or with the double quote when the string
    holds a single quote and no double quote; the quote and the backslash
    are escaped, and so are the characters that are not printable: the
    control characters, and 128 to 160 and 173 of Latin-1. *)

Module Repr.

Definition hex_digit (n : N) : ascii :=
  if (n <? 10)%N then ascii_of_N (48 + n) else ascii_of_N (87 + n).

Definition escape (quote c : ascii) : string :=
  let n := Char.code c in
  let backslash := ascii_of_N 92 in
  if bool_decide (c = quote) || (n =? 92)%N then String backslash (String c "")
  else if (n =? 9)%N then String backslash "t"
  else if (n =? 10)%N then String backslash "n"
  else if (n =? 13)%N then String backslash "r"
  else if (n <? 32)%N || (n =? 127)%N || Char.between 128 160 c
          || (n =? 173)%N
  then String backslash
         (String "x" (String (hex_digit (n / 16)) (String (hex_digit (n mod 16)) "")))
  else String c "".

Fixpoint escape_all (quote : ascii) (s : string) : string :=
  match s with
  | EmptyString => EmptyString
  | String c r => escape quote c ++ escape_all quote r
  end.

Definition single : ascii := ascii_of_N 39.
Definition double : ascii := ascii_of_N 34.

(** [repr(s)] *)
Definition of_string (s : string) : string :=
  let quote :=
    if contains_char single s && negb (contains_char double s)
    then double else single in
  String quote (escape_all quote s ++ String quote "").

(** [repr([s])], which is also [str([s])] *)
Definition of_singleton (s : string) : string :=
  "[" ++ of_string s ++ "]".

End Repr.

(** ** Values *)

(** A scalar held by a DataFrame cell. A missing value of the CSV is the
    float NaN; [NaT] is the missing value of a datetime column. *)
Inductive cell :=
  | Str (s : string)
  | Int (n : Z)
  | Float (x : Float.t)
  | Timestamp (ns : Z)
  | NaT.

#[global] Instance cell_eq_dec : EqDecision cell.
Proof. solve_decision. Defined.

Definition NaN : cell := Float Float.nan.

(** [pd.isnull] on a scalar. *)
Definition isnull (c : cell) : bool :=
  match c with
  | Float x => Float.is_nan x
  | NaT => true
  | _ => false
  end.

(** Python values that cross the client boundary: scalars, lists and
    dictionaries with string keys. *)
#[local] Unset Elimination Schemes.
Inductive pyval :=
  | PVal (c : cell)
  | PList (l : list pyval)
  | PDict (d : list (string * pyval)).
#[local] Set Elimination Schemes.

(** The exceptions of the script. [KeyError key] is [KeyError(key)] for
    a string [key]; [KeyErrorIndex labels] is the [KeyError] that pandas
    raises with the Index of the missing labels as its argument,
    [KeyError(Index(labels))]; [ValueError text] is the [ValueError] of
    [float] on the string [text]. *)
Inductive exn :=
  | KeyError (key : string)
  | KeyErrorIndex (labels : list string)
  | ValueError (text : string)
  | TypeError
  | AttributeError
  | OverflowError
  | FileNotFoundError (path : string)
  | NotFoundError
  | ConnectionError
  | RequestError.

#[global] Instance exn_eq_dec : EqDecision exn.
Proof. solve_decision. Defined.

Definition result (A : Type) : Type := exn + A.

(** Association lists with Python [dict] behaviour: the first binding of a
    key is the one that is read and assigned. *)
Fixpoint dict_get {A} (k : string) (l : list (string * A)) : option A :=
  match l with
  | [] => None
  | (k', v) :: r => if decide (k' = k) then Some v else dict_get k r
  end.

Fixpoint dict_set {A} (k : string) (v : A) (l : list (string * A))
  : list (string * A) :=
  match l with
  | [] => [(k, v)]
  | (k', v') :: r =>
      if decide (k' = k) then (k, v) :: r else (k', v') :: dict_set k v r
  end.

(** [obj[key]] on a value. *)
Definition subscript (v : pyval) (key : string) : result pyval :=
  match v with
  | PDict d =>
      match dict_get key d with
      | Some x => inr x
      | None => inl (KeyError key)
      end
  | _ => inl TypeError
  end.

(** ** Series *)

Inductive dtype := int64 | float64 | object | datetime64.

#[global] Instance dtype_eq_dec : EqDecision dtype.
Proof. solve_decision. Defined.

Record series := Series { s_dtype : dtype; s_values : list cell }.

(** [Series.replace({p1: '', p2: '', ...}, regex=True)]: the patterns are
    applied in turn to every string of the column; a value that is not a
    string is left as it is. *)
Definition replace_cell (ps : list pattern) (c : cell) : cell :=
  match c with
  | Str s => Str (fold_left (λ acc p, re_sub_empty p acc) ps s)
  | _ => c
  end.

Definition replace_regex (ps : list pattern) (s : series) : series :=
  Series (s_dtype s) (replace_cell ps <$> s_values s).

(** [float(x)] on a cell. An integer too large for a float raises
    [OverflowError]: it is one whose nearest float would be infinite. *)
Definition cell_to_float (c : cell) : result Float.t :=
  match c with
  | Str s =>
      match Float.of_string s with
      | Some x => inr x
      | None => inl (ValueError s)
      end
  | Int n =>
      match Float.of_Z n with
      | S754_infinity _ => inl OverflowError
      | x => inr x
      end
  | Float x => inr x
  | Timestamp _ | NaT => inl TypeError
  end.

Fixpoint traverse {A B} (f : A → result B) (l : list A) : result (list B) :=
  match l with
  | [] => inr []
  | x :: r =>
      match f x with
      | inl e => inl e
      | inr y =>
          match traverse f r with
          | inl e => inl e
          | inr ys => inr (y :: ys)
          end
      end
  end.

(** [Series.astype(float)] *)
Definition astype_float (s : series) : result series :=
  match traverse cell_to_float (s_values s) with
  | inl e => inl e
  | inr xs => inr (Series float64 (Float <$> xs))
  end.

(** The date parser of pandas: [parse_datetime column x] is the instant (in
    nanoseconds since the epoch) that [to_datetime] reads in the scalar [x]
    of the column [column], or [None] when [x] cannot be parsed. *)
Class DateParser := parse_datetime : list cell → cell → option Z.

(** [pd.to_datetime(s, errors='coerce')] *)
Definition to_datetime_coerce `{DateParser} (s : series) : series :=
  Series datetime64
    ((λ c, match parse_datetime (s_values s) c with
           | Some ns => Timestamp ns
           | None => NaT
           end) <$> s_values s).

(** [Series.str.replace(p, '', regex=True)]: the [.str] accessor exists on
    object columns only; a value that is not a string becomes NaN. *)
Definition str_replace_cell (p : pattern) (c : cell) : cell :=
  match c with
  | Str s => Str (re_sub_empty p s)
  | _ => NaN
  end.

Definition str_replace (p : pattern) (s : series) : result series :=
  match s_dtype s with
  | object => inr (Series object (str_replace_cell p <$> s_values s))
  | _ => inl AttributeError
  end.

(** ** DataFrames *)

(** The columns of a DataFrame, in order. *)
Abbreviation frame := (list (string * series)).

Definition column_values (k : string) (f : frame) : list cell :=
  match dict_get k f with
  | Some s => s_values s
  | None => []
  end.

(** The message of [drop] for a label that is not a column:
    [f"{[k]} not found in axis"]. *)
Definition not_found_in_axis (k : string) : string :=
  Repr.of_singleton k ++ " not found in axis".

(** [DataFrame.drop(columns=[k])] *)
Definition drop_column (k : string) (f : frame) : result frame :=
  match dict_get k f with
  | Some _ => inr (filter (λ c, c.1 ≠ k) f)
  | None => inl (KeyError (not_found_in_axis k))
  end.

(** The key under which [duplicated] compares two values: NaN equals NaN
    and the two zeros are one value. A column that [read_csv] built holds
    values of one kind (integers, floats, or strings and NaN), and two
    values of one kind are duplicates when their keys are equal. *)
Definition dup_key (c : cell) : cell :=
  match c with
  | Float (S754_zero _) => Float (S754_zero false)
  | _ => c
  end.

(** [Series.duplicated(keep='first')], with the keys met so far. *)
Fixpoint duplicated (seen : list cell) (xs : list cell) : list bool :=
  match xs with
  | [] => []
  | x :: r =>
      bool_decide (dup_key x ∈ seen) :: duplicated (dup_key x :: seen) r
  end.

(** The rows of [xs] whose flag in [drops] is false. *)
Fixpoint keep_rows {A} (drops : list bool) (xs : list A) : list A :=
  match drops, xs with
  | d :: ds, x :: r => if d then keep_rows ds r else x :: keep_rows ds r
  | _, _ => []
  end.

(** [DataFrame.drop_duplicates(subset=[k])]; without a column [k] it
    raises [KeyError(Index([k]))]. *)
Definition drop_duplicates (k : string) (f : frame) : result frame :=
  match dict_get k f with
  | Some ids =>
      let drops := duplicated [] (s_values ids) in
      inr ((λ c, (c.1, Series (s_dtype c.2) (keep_rows drops (s_values c.2))))
             <$> f)
  | None => inl (KeyErrorIndex [k])
  end.

(** [DataFrame.isnull().values.any()] *)
Definition any_null (f : frame) : bool :=
  existsb (λ c, existsb isnull (s_values c.2)) f.

(** A row, as [iterrows] yields it: the value of each column at one
    position. *)
Definition row := list (string * cell).

Definition row_at (f : frame) (i : nat) : row :=
  omap (λ c, (λ v, (c.1, v)) <$> s_values c.2 !! i) f.

Definition nrows (f : frame) : nat :=
  match f with
  | [] => 0%nat
  | c :: _ => length (s_values c.2)
  end.

Definition iterrows (f : frame) : list row :=
  row_at f <$> seq 0 (nrows f).

(** [Series.to_dict()] of a row. *)
Definition to_dict (r : row) : pyval :=
  PDict ((λ kv, (kv.1, PVal kv.2)) <$> r).

(** ** The search engine client *)

(** The calls of the Elasticsearch client that the script makes. Each one
    answers with a value or raises, and may change the engine. *)
Class Engine (E : Type) := {
  es_indices_exists : string → E → result bool * E;
  es_indices_create : string → pyval → E → result unit * E;
  es_index : string → cell → pyval → E → result unit * E;
  es_search : string → pyval → E → result pyval * E;
  es_count : string → E → result pyval * E;
  es_delete : string → cell → E → result unit * E;
}.

Inductive call :=
  | CallExists (index : string)
  | CallCreate (index : string) (mappings : pyval)
  | CallIndex (index : string) (id : cell) (document : pyval)
  | CallSearch (index : string) (body : pyval)
  | CallCount (index : string)
  | CallDelete (index : string) (id : cell).

(** ** Program state *)

(** A printed line: the pieces of an f-string, literal text and
    interpolated values. *)
Inductive piece := Text (s : string) | Subst (v : cell).
Definition line := list piece.

Definition ref := nat.

Record state (E : Type) := State {
  heap : list frame;              (* the DataFrame objects, by reference *)
  files : gmap string frame;      (* CSV files, as [read_csv] parses them *)
  es : E;                         (* the engine behind [self.es] *)
  calls : list call;              (* client calls made so far *)
  stdout : list line;             (* lines printed so far *)
}.
Arguments State {E}.
Arguments heap {E}.
Arguments files {E}.
Arguments es {E}.
Arguments calls {E}.
Arguments stdout {E}.

Section Program.

Context {E : Type} `{!Engine E} `{!DateParser}.

(** Computations of the script: a result or an exception, and the state
    left behind in both cases. *)
Definition M (A : Type) : Type := state E → result A * state E.

#[global] Instance M_ret : MRet M := λ A x st, (inr x, st).

#[global] Instance M_bind : MBind M := λ A B k m st,
  match m st with
  | (inr x, st') => k x st'
  | (inl e, st') => (inl e, st')
  end.

Definition raise {A} (e : exn) : M A := λ st, (inl e, st).

Definition lift {A} (r : result A) : M A := λ st, (r, st).

(** [try: body  except <exceptions selected by handles>: handler] *)
Definition try_except {A} (body : M A) (handles : exn → bool)
    (handler : M A) : M A := λ st,
  match body st with
  | (inl e, st') => if handles e then handler st' else (inl e, st')
  | r => r
  end.

Definition print (l : line) : M unit := λ st,
  (inr (), State (heap st) (files st) (es st) (calls st) (stdout st ++ [l])).

(** A call through [self.es]. *)
Definition client {A} (c : call) (op : E → result A * E) : M A := λ st,
  let (r, e') := op (es st) in
  (r, State (heap st) (files st) e' (calls st ++ [c]) (stdout st)).

(** *** DataFrame objects *)

(** The object behind a reference. The script only holds references that
    [read_csv] or a DataFrame method gave it, so the second case is never
    met. *)
Definition deref (df : ref) : M frame := λ st,
  match heap st !! df with
  | Some f => (inr f, st)
  | None => (inl TypeError, st)
  end.

Definition new_frame (f : frame) : M ref := λ st,
  (inr (length (heap st)),
   State (heap st ++ [f]) (files st) (es st) (calls st) (stdout st)).

(** [df[k]] *)
Definition getitem (df : ref) (k : string) : M series :=
  f ← deref df;
  match dict_get k f with
  | Some s => mret s
  | None => raise (KeyError k)
  end.

(** [df[k] = s] *)
Definition setitem (df : ref) (k : string) (s : series) : M unit := λ st,
  match heap st !! df with
  | Some f =>
      (inr (), State (<[df := dict_set k s f]> (heap st)) (files st) (es st)
                     (calls st) (stdout st))
  | None => (inl TypeError, st)
  end.

(** [pd.read_csv(path, encoding='ISO-8859-1')] *)
Definition read_csv (path : string) : M ref := λ st,
  match files st !! path with
  | Some f => new_frame f st
  | None => (inl (FileNotFoundError path), st)
  end.

(** A method that returns a new DataFrame. *)
Definition derive (op : frame → result frame) (df : ref) : M ref :=
  f ← deref df;
  f' ← lift (op f);
  new_frame f'.

(** *** EmployeeDatabase *)

Definition mappings : pyval :=
  let field (name type : string) :=
    (name, PDict [("type", PVal (Str type))]) in
  PDict [("properties", PDict [
    field "Employee ID" "keyword";
    field "Full Name" "text";
    field "Job Title" "text";
    field "Department" "keyword";
    field "Business Unit" "text";
    field "Gender" "keyword";
    field "Ethnicity" "keyword";
    field "Age" "integer";
    field "Hire Date" "date";
    field "Annual Salary" "float";
    field "Bonus %" "float";
    field "Country" "text";
    field "City" "text";
    field "Exit Date" "date"])].

Definition create_collection (collection_name : string) : M unit :=
  present ← client (CallExists collection_name)
                   (es_indices_exists collection_name);
  if negb present then
    client (CallCreate collection_name mappings)
           (es_indices_create collection_name mappings);;
    print [Text "Collection '"; Subst (Str collection_name);
           Text "' created."]
  else mret ().

Definition clean_data (df : ref) : M ref :=
  s ← getitem df "Annual Salary";
  s ← lift (astype_float (replace_regex [Literal "$"; Literal ","] s));
  setitem df "Annual Salary" s;;
  s ← getitem df "Bonus %";
  s ← lift (astype_float (replace_regex [Literal "%"] s));
  setitem df "Bonus %" s;;
  s ← getitem df "Hire Date";
  setitem df "Hire Date" (to_datetime_coerce s);;
  s ← getitem df "Exit Date";
  setitem df "Exit Date" (to_datetime_coerce s);;
  s ← getitem df "Full Name";
  s ← lift (str_replace NotWordNotSpace s);
  setitem df "Full Name" s;;
  s ← getitem df "Job Title";
  s ← lift (str_replace NotWordNotSpace s);
  setitem df "Job Title" s;;
  mret df.

(** Lines 42 to 45 of [index_data]: the cleaned batch. *)
Definition load_batch (exclude_column : string) : M ref :=
  df ← read_csv "employee_data.csv";
  df ← derive (drop_column exclude_column) df;
  df ← derive (drop_duplicates "Employee ID") df;
  clean_data df.

Definition null_batch_line : line :=
  [Text "DataFrame contains null values. Please check your CSV."].

Definition skip_line : line :=
  [Text "Skipping document with null Employee ID"].

(** The loop of [index_data] over the rows of [iterrows]. *)
Fixpoint index_rows (collection_name : string) (rows : list row) : M unit :=
  match rows with
  | [] => mret ()
  | document :: rest =>
      employee_id ← match dict_get "Employee ID" document with
                    | Some v => mret v
                    | None => raise (KeyError "Employee ID")
                    end;
      if isnull employee_id then
        print skip_line;;
        index_rows collection_name rest
      else
        client (CallIndex collection_name employee_id (to_dict document))
          (es_index collection_name employee_id (to_dict document));;
        print [Text "Indexed document with Employee ID: ";
               Subst employee_id];;
        index_rows collection_name rest
  end.

Definition index_data (collection_name exclude_column : string) : M unit :=
  df ← load_batch exclude_column;
  f ← deref df;
  if any_null f then print null_batch_line
  else index_rows collection_name (iterrows f).

Definition search_by_column (collection_name column_name : string)
    (column_value : cell) : M pyval :=
  let query :=
    PDict [("query", PDict [("match",
      PDict [(column_name, PVal column_value)])])] in
  response ← client (CallSearch collection_name query)
                    (es_search collection_name query);
  hits ← lift (subscript response "hits");
  lift (subscript hits "hits").

Definition get_emp_count (collection_name : string) : M pyval :=
  response ← client (CallCount collection_name) (es_count collection_name);
  lift (subscript response "count").

Definition is_not_found (e : exn) : bool := bool_decide (e = NotFoundError).

Definition del_emp_by_id (collection_name : string) (employee_id : cell)
    : M unit :=
  try_except
    (client (CallDelete collection_name employee_id)
            (es_delete collection_name employee_id);;
     print [Text "Deleted employee with ID: "; Subst employee_id])
    is_not_found
    (print [Text "Employee ID: "; Subst employee_id; Text " not found."]).

End Program.

(** ** The department facet *)

Section Facets.
Context {E : Type} `{!Engine E}.

Definition get_dep_facet (collection_name : string) : M pyval :=
  let query :=
    PDict [("size", PVal (Int 0));
           ("aggs", PDict [("department_count", PDict [("terms",
              PDict [("field", PVal (Str "Department"));
                     ("size", PVal (Int 10))])])])] in
  response ← client (CallSearch collection_name query)
                    (es_search collection_name query);
  aggregations ← lift (subscript response "aggregations");
  department_count ← lift (subscript aggregations "department_count");
  lift (subscript department_count "buckets").

End Facets.

(** ** A date parser and an engine to run the script on

    The theorems below hold for every date parser and every engine. These
    two are small executable ones, on which concrete runs are computed. *)

Module IsoDate.

#[local] Open Scope Z_scope.

Definition days_from_civil (y m d : Z) : Z :=
  let y' := if m <=? 2 then y - 1 else y in
  let era := y' / 400 in
  let yoe := y' - era * 400 in
  let doy := (153 * (if 2 <? m then m - 3 else m + 9) + 2) / 5 + d - 1 in
  let doe := yoe * 365 + yoe / 4 - yoe / 100 + doy in
  era * 146097 + doe - 719468.

Definition days_in_month (y m : Z) : Z :=
  if m =? 2 then
    if ((y mod 4 =? 0) && negb (y mod 100 =? 0)) || (y mod 400 =? 0)
    then 29 else 28
  else if (m =? 4) || (m =? 6) || (m =? 9) || (m =? 11) then 30 else 31.

(** [YYYY-MM-DD] *)
Definition parse_string (s : string) : option Z :=
  match list_ascii_of_string s with
  | [y1; y2; y3; y4; h1; m1; m2; h2; d1; d2] =>
      if forallb Char.is_digit [y1; y2; y3; y4; m1; m2; d1; d2]
         && bool_decide (h1 = "-"%char) && bool_decide (h2 = "-"%char)
      then
        let y := Float.digits_val [y1; y2; y3; y4] in
        let m := Float.digits_val [m1; m2] in
        let d := Float.digits_val [d1; d2] in
        if (1 <=? m) && (m <=? 12) && (1 <=? d) && (d <=? days_in_month y m)
        then Some (days_from_civil y m d * 86400000000000)
        else None
      else None
  | _ => None
  end.

#[export] Instance parser : DateParser := λ _ c,
  match c with
  | Str s => parse_string s
  | Int n => Some n
  | Timestamp ns => Some ns
  | _ => None
  end.

End IsoDate.

Module MemEngine.

Record index := Index { mapping : pyval; documents : list (cell * pyval) }.

Record t := Mem { reachable : bool; indices : gmap string index }.

Definition guarded {A} (e : t) (r : result A * t) : result A * t :=
  if reachable e then r else (inl ConnectionError, e).

Definition put (name : string) (ix : index) (e : t) : t :=
  Mem (reachable e) (<[name := ix]> (indices e)).

Fixpoint upsert (id : cell) (doc : pyval) (l : list (cell * pyval))
  : list (cell * pyval) :=
  match l with
  | [] => [(id, doc)]
  | (id', doc') :: r =>
      if decide (id' = id) then (id, doc) :: r
      else (id', doc') :: upsert id doc r
  end.

(** The standard analyzer, on Latin-1 text: lower-cased maximal runs of
    alphanumeric characters. *)
Fixpoint tokens (cur : string) (s : string) : list string :=
  match s with
  | EmptyString => if decide (cur = "") then [] else [cur]
  | String c r =>
      if Char.is_alnum c
      then tokens (cur ++ String (Char.lower c) "") r
      else if decide (cur = "") then tokens "" r
      else cur :: tokens "" r
  end.

Definition field_type (m : pyval) (field : string) : option string :=
  match subscript m "properties" with
  | inr ps =>
      match subscript ps field with
      | inr f =>
          match subscript f "type" with
          | inr (PVal (Str ty)) => Some ty
          | _ => None
          end
      | _ => None
      end
  | _ => None
  end.

(** Strings of a field without a mapping are indexed as text. *)
Definition is_text (m : pyval) (field : string) : bool :=
  match field_type m field with
  | Some ty => bool_decide (ty = "text")
  | None => true
  end.

Definition field_of (doc : pyval) (field : string) : option cell :=
  match subscript doc field with
  | inr (PVal c) => Some c
  | _ => None
  end.

Definition match_query (m : pyval) (field : string) (q : cell)
    (doc : pyval) : bool :=
  match field_of doc field, q with
  | Some (Str d), Str w =>
      if is_text m field
      then existsb (λ tok, bool_decide (tok ∈ tokens "" d)) (tokens "" w)
      else bool_decide (d = w)
  | Some c, _ => bool_decide (c = q)
  | None, _ => false
  end.

Definition term_query (m : pyval) (field : string) (q : cell)
    (doc : pyval) : bool :=
  match field_of doc field, q with
  | Some (Str d), Str w =>
      if is_text m field then bool_decide (w ∈ tokens "" d)
      else bool_decide (d = w)
  | Some c, _ => bool_decide (c = q)
  | None, _ => false
  end.

Definition hit (name : string) (d : cell * pyval) : pyval :=
  PDict [("_index", PVal (Str name)); ("_id", PVal d.1); ("_source", d.2)].

Definition run_query (name : string) (ix : index) (body : pyval)
  : result pyval :=
  match subscript body "query" with
  | inr (PDict [(kind, PDict [(field, PVal q)])]) =>
      let select :=
        if decide (kind = "match") then Some (match_query (mapping ix) field q)
        else if decide (kind = "term")
        then Some (term_query (mapping ix) field q)
        else None in
      match select with
      | Some p =>
          let found := filter (λ d, p d.2 = true) (documents ix) in
          inr (PDict [("hits", PDict [
            ("total", PVal (Int (Z.of_nat (length found))));
            ("hits", PList (hit name <$> take 10 found))])])
      | None => inl RequestError
      end
  | _ => inl RequestError
  end.

#[export] Instance engine : Engine t := {|
  es_indices_exists name e :=
    guarded e (inr (bool_decide (is_Some (indices e !! name))), e);
  es_indices_create name m e :=
    guarded e
      match indices e !! name with
      | Some _ => (inl RequestError, e)
      | None => (inr (), put name (Index m []) e)
      end;
  es_index name id doc e :=
    guarded e
      (let ix := default (Index (PDict []) []) (indices e !! name) in
       (inr (), put name (Index (mapping ix) (upsert id doc (documents ix))) e));
  es_search name body e :=
    guarded e
      match indices e !! name with
      | Some ix => (run_query name ix body, e)
      | None => (inl NotFoundError, e)
      end;
  es_count name e :=
    guarded e
      match indices e !! name with
      | Some ix =>
          (inr (PDict [("count", PVal (Int (Z.of_nat (length (documents ix)))))]), e)
      | None => (inl NotFoundError, e)
      end;
  es_delete name id e :=
    guarded e
      match indices e !! name with
      | Some ix =>
          if bool_decide (id ∈ (documents ix).*1)
          then (inr (), put name (Index (mapping ix)
                  (filter (λ d, d.1 ≠ id) (documents ix))) e)
          else (inl NotFoundError, e)
      | None => (inl NotFoundError, e)
      end;
|}.

End MemEngine.

(** ** The effect of [clean_data] on the DataFrame it receives

    [clean_data] is six assignments [df[k] = op(df[k])]. On the frame held
    by the object they amount to [run_steps]: the exception raised, if any,
    and the columns as the assignments made before it left them. *)

Definition step : Type := string * (series → result series).

Fixpoint run_steps (steps : list step) (f : frame) : option exn * frame :=
  match steps with
  | [] => (None, f)
  | (k, op) :: rest =>
      match dict_get k f with
      | None => (Some (KeyError k), f)
      | Some s =>
          match op s with
          | inl e => (Some e, f)
          | inr s' => run_steps rest (dict_set k s' f)
          end
      end
  end.

Definition clean_steps `{DateParser} : list step := [
  ("Annual Salary",
    λ s, astype_float (replace_regex [Literal "$"; Literal ","] s));
  ("Bonus %", λ s, astype_float (replace_regex [Literal "%"] s));
  ("Hire Date", λ s, inr (to_datetime_coerce s));
  ("Exit Date", λ s, inr (to_datetime_coerce s));
  ("Full Name", str_replace NotWordNotSpace);
  ("Job Title", str_replace NotWordNotSpace)].

Definition with_heap {E} (st : state E) (h : list frame) : state E :=
  State h (files st) (es st) (calls st) (stdout st).

Definition outcome (df : ref) (e : option exn) : result ref :=
  match e with None => inr df | Some x => inl x end.

(** [rest] performs the assignments [steps] on the object [df], and
    returns [df]. *)
Definition runs {E} (df : ref) (rest : @M E ref) (steps : list step) : Prop :=
  ∀ st f, heap st !! df = Some f →
    rest st = (outcome df (run_steps steps f).1,
               with_heap st (<[df := (run_steps steps f).2]> (heap st))).

(** The characters of [cs] removed from [s]. *)
Definition remove_all (cs : list ascii) (s : string) : string :=
  delete_chars (λ c, bool_decide (c ∈ cs)) s.

(** The body of a term query on one field. *)
Definition term_query_body (field : string) (value : cell) : pyval :=
  PDict [("query", PDict [("term", PDict [(field, PVal value)])])].

(** Two frames with the same columns, equal outside the columns [ks]. *)
Definition agree_outside (ks : list string) (f g : frame) : Prop :=
  Forall2 (λ c d, c.1 = d.1 ∧ (c.1 ∉ ks → c.2 = d.2)) f g.

(** A row whose identifier, if it has one, is not null. *)
Definition no_null_id (r : row) : Prop :=
  ∀ v, dict_get "Employee ID" r = Some v → isnull v = false.

(** An upsert into [collection_name] of a document whose identifier is not
    null. *)
Definition sound_upsert (collection_name : string) (c : call) : Prop :=
  ∃ id doc, c = CallIndex collection_name id doc ∧ isnull id = false.

(** The value of column [k] at position [i] in the object [df]. *)
Definition cell_at {E} (st : state E) (df : ref) (k : string) (i : nat)
  : option cell :=
  f ← heap st !! df; column_values k f !! i.

(** ** Concrete inputs *)

Module Sample.

#[local] Existing Instance IsoDate.parser.
#[local] Existing Instance MemEngine.engine.

Definition text (k : string) (vs : list string) : string * series :=
  (k, Series object (Str <$> vs)).

(** Three rows for two employees: the third row repeats the identifier of
    the first. *)
Definition employees : frame := [
  text "Employee ID" ["E0001"; "E0002"; "E0001"];
  text "Full Name" ["John_O'Neil"; "Ann Lee"; "John O'Neil"];
  text "Job Title" ["Sr. Manager"; "Developer"; "Manager"];
  text "Department" ["IT"; "IT"; "HR"];
  text "Hire Date" ["2020-01-15"; "2019-02-28"; "2020-01-15"];
  text "Annual Salary" ["$50,000"; "$1,000.50"; "$50,000"];
  text "Bonus %" ["10%"; "0%"; "10%"];
  text "Exit Date" ["2021-01-15"; "2022-12-31"; "2021-01-15"]].

(** The same file, with an exit date that is not a date. *)
Definition bad_exit_date : frame :=
  dict_set "Exit Date"
    (Series object [Str "2021-01-15"; Str "still employed"; Str "n/a"])
    employees.

(** The same file, with no identifier in its second row. *)
Definition missing_id : frame :=
  dict_set "Employee ID"
    (Series object [Str "E0001"; NaN; Str "E0003"])
    employees.

Definition engine (up : bool) : MemEngine.t := MemEngine.Mem up ∅.

Definition boot (csv : frame) (up : bool) : state MemEngine.t :=
  State [] {["employee_data.csv" := csv]} (engine up) [] [].

(** A state whose only object is the frame [f], at reference 0. *)
Definition holding (f : frame) : state MemEngine.t :=
  State [f] ∅ (engine true) [] [].

(** The cleaned batch that [index_data] builds from the file [csv]. *)
Definition cleaned (csv : frame) : frame :=
  default [] (heap (load_batch "Department" (boot csv true)).2 !! 2%nat).

(** The state after [create_collection] and [index_data] on
    [employees]. *)
Definition indexed : state MemEngine.t := Eval vm_compute in
  let st := (create_collection "hash_nikhil" (boot employees true)).2 in
  (index_data "hash_nikhil" "Department" st).2.

End Sample.

(** The two request bodies of the searches. *)
Definition dep_query_body : pyval :=
  PDict [("size", PVal (Int 0));
         ("aggs", PDict [("department_count", PDict [("terms",
            PDict [("field", PVal (Str "Department"));
                   ("size", PVal (Int 10))])])])].

Definition match_query_body (column_name : string) (column_value : cell) : pyval :=
  PDict [("query", PDict [("match",
    PDict [(column_name, PVal column_value)])])].

(** ** Shapes of frames, and what the loop sends *)

(** Every column of [f] has [n] values. *)
Definition has_rows (n : nat) (f : frame) : Prop :=
  Forall (λ c, length (s_values c.2) = n) f.

(** The same column names, in the same order, with as many values. *)
Definition same_shape (f g : frame) : Prop :=
  Forall2 (λ c d, c.1 = d.1 ∧ length (s_values c.2) = length (s_values d.2))
          f g.

(** An assignment that keeps the number of values of the column. *)
Definition keeps_length (op : series → result series) : Prop :=
  ∀ s s', op s = inr s' → length (s_values s') = length (s_values s).

(** The columns that [index_data] reads by name. *)
Definition needed_columns : list string :=
  ["Employee ID"; "Annual Salary"; "Bonus %"; "Hire Date"; "Exit Date";
   "Full Name"; "Job Title"].

(** What one turn of the loop of [index_data] sends and prints for the row
    [r]: nothing is sent for a null identifier. *)
Definition row_id (r : row) : cell :=
  default NaN (dict_get "Employee ID" r).

Definition upsert_of (collection_name : string) (r : row) : option call :=
  if isnull (row_id r) then None
  else Some (CallIndex collection_name (row_id r) (to_dict r)).

Definition line_of (r : row) : line :=
  if isnull (row_id r) then skip_line
  else [Text "Indexed document with Employee ID: "; Subst (row_id r)].

Definition call_id (c : call) : option cell :=
  match c with CallIndex _ id _ => Some id | _ => None end.

Definition is_float (v : pyval) : Prop :=
  ∃ x, v = PVal (Float x) ∧ Float.is_nan x = false.

Definition is_timestamp (v : pyval) : Prop := ∃ ns, v = PVal (Timestamp ns).

Definition is_clean_text (v : pyval) : Prop :=
  ∃ s, v = PVal (Str s) ∧
       string_forall (λ a, Char.is_word a || Char.is_space a) s = true.

(** ** An engine that answers from a script

    Each call takes the next answer of the script; with it the script can be
    run against answers of any form. *)

Module Canned.

Definition script := list (result pyval).

Definition next {A} (read : pyval → A) (e : script) : result A * script :=
  match e with
  | [] => (inl ConnectionError, [])
  | inl x :: rest => (inl x, rest)
  | inr v :: rest => (inr (read v), rest)
  end.

#[export] Instance engine : Engine script := {|
  es_indices_exists _ :=
    next (λ v, match v with PVal (Int 0) => false | _ => true end);
  es_indices_create _ _ := next (λ _, ());
  es_index _ _ _ := next (λ _, ());
  es_search _ _ := next id;
  es_count _ := next id;
  es_delete _ _ := next (λ _, ());
|}.

Definition start (answers : script) : state script :=
  State [] ∅ answers [] [].

End Canned.

(** * Properties *)

Ltac absurd_elem H :=
  exfalso;
  repeat (apply elem_of_cons in H as [H|H]; [discriminate H|]);
  by apply elem_of_nil in H.

(** ** Dictionaries *)

Section Assoc.
Context {A : Type}.
Implicit Types (k : string) (v : A) (l : list (string * A)).

Lemma dict_set_eq k v l : dict_get k (dict_set k v l) = Some v.
Proof.
  induction l as [|[k' v'] l IH]; simpl.
  - by rewrite decide_True.
  - destruct (decide (k' = k)) as [->|Hne]; simpl.
    + by rewrite decide_True.
    + by rewrite decide_False.
Qed.

Lemma dict_set_ne k k' v l : k ≠ k' → dict_get k (dict_set k' v l) = dict_get k l.
Proof.
  intros Hne. induction l as [|[k0 v0] l IH]; simpl.
  - by rewrite decide_False.
  - destruct (decide (k0 = k')) as [->|Hne']; simpl.
    + rewrite !decide_False; auto.
    + destruct (decide (k0 = k)); auto.
Qed.

Lemma dict_get_elem k v l : dict_get k l = Some v → (k, v) ∈ l.
Proof.
  induction l as [|[k0 v0] l IH]; simpl; [done|].
  destruct (decide (k0 = k)) as [->|Hne].
  - intros [= ->]. left.
  - intros Hl. right. auto.
Qed.
End Assoc.

Lemma dict_get_filter_ne {A} k k' (l : list (string * A)) :
  k ≠ k' → dict_get k (filter (λ c, c.1 ≠ k') l) = dict_get k l.
Proof.
  intros Hne. induction l as [|[k0 v] l IH]; [done|].
  destruct (decide (k0 = k')) as [->|Hk0].
  - rewrite filter_cons_False by (simpl; auto). simpl.
    by rewrite decide_False.
  - rewrite filter_cons_True by done. simpl. by rewrite IH.
Qed.

Lemma dict_get_filter_eq {A} k (l : list (string * A)) :
  dict_get k (filter (λ c, c.1 ≠ k) l) = None.
Proof.
  induction l as [|[k0 v] l IH]; [done|].
  destruct (decide (k0 = k)) as [->|Hk0].
  - by rewrite filter_cons_False by (simpl; auto).
  - rewrite filter_cons_True by done. simpl. by rewrite decide_False.
Qed.

Lemma dict_get_fmap {A B} (g : A → B) k (l : list (string * A)) :
  dict_get k ((λ c, (c.1, g c.2)) <$> l) = g <$> dict_get k l.
Proof.
  induction l as [|[k0 v] l IH]; [done|]. simpl.
  by destruct (decide (k0 = k)).
Qed.

(** ** Runs of assignments *)

Section Steps.
Implicit Types (ks : list string) (f g : frame).

Lemma run_steps_other steps f k :
  k ∉ steps.*1 → dict_get k (run_steps steps f).2 = dict_get k f.
Proof.
  revert f. induction steps as [|[k0 op] steps IH]; intros f Hk; simpl; [done|].
  apply not_elem_of_cons in Hk as [Hne Hk].
  destruct (dict_get k0 f) as [s|] eqn:Hs; [|done].
  destruct (op s) as [e|s']; [done|].
  rewrite IH by done. by apply dict_set_ne.
Qed.

Lemma run_steps_ok steps f f' k op :
  NoDup steps.*1 →
  run_steps steps f = (None, f') →
  (k, op) ∈ steps →
  ∃ s s', dict_get k f = Some s ∧ op s = inr s' ∧ dict_get k f' = Some s'.
Proof.
  revert f. induction steps as [|[k0 op0] steps IH]; intros f Hnd Hrun Hin.
  { by apply elem_of_nil in Hin. }
  simpl in Hnd. apply NoDup_cons in Hnd as [Hk0 Hnd].
  simpl in Hrun.
  destruct (dict_get k0 f) as [s0|] eqn:Hs0; [|done].
  destruct (op0 s0) as [e|s0'] eqn:Hop; [done|].
  apply elem_of_cons in Hin as [[= -> ->]|Hin].
  - exists s0, s0'. split_and!; [done..|].
    replace f' with (run_steps steps (dict_set k0 s0' f)).2 by by rewrite Hrun.
    rewrite run_steps_other by done. apply dict_set_eq.
  - destruct (IH _ Hnd Hrun Hin) as (s & s' & Hs & Hops & Hf').
    exists s, s'. split_and!; [|done..].
    rewrite dict_set_ne in Hs; [done|].
    intros ->. apply Hk0. apply (list_elem_of_fmap_2 fst) in Hin. done.
Qed.

Lemma agree_get_outside ks f g k :
  agree_outside ks f g → k ∉ ks → dict_get k f = dict_get k g.
Proof.
  intros Hfg Hk. induction Hfg as [|[k1 s1] [k2 s2] f g [Hkey Hval] _ IH];
    simpl in *; [done|]. subst k2.
  destruct (decide (k1 = k)) as [->|]; [|done].
  by rewrite (Hval Hk).
Qed.

Lemma agree_get_None ks f g k :
  agree_outside ks f g → dict_get k f = None → dict_get k g = None.
Proof.
  intros Hfg. induction Hfg as [|[k1 s1] [k2 s2] f g [Hkey Hval] _ IH];
    simpl in *; [done|]. subst k2.
  by destruct (decide (k1 = k)).
Qed.

Lemma agree_sym ks f g : agree_outside ks f g → agree_outside ks g f.
Proof.
  intros Hfg. induction Hfg as [|c d f g [Hkey Hval] _ IH]; constructor; [|done].
  split; [done|]. intros Hk. symmetry. apply Hval. by rewrite Hkey.
Qed.

Lemma agree_set ks f g k s t :
  agree_outside ks f g → (k ∉ ks → s = t) →
  agree_outside ks (dict_set k s f) (dict_set k t g).
Proof.
  intros Hfg Hst. induction Hfg as [|[k1 s1] [k2 s2] f g [Hkey Hval] Hfg IH];
    simpl in *.
  - by repeat constructor.
  - subst k2. destruct (decide (k1 = k)) as [->|]; by constructor.
Qed.

(** The exception of a run does not depend on the columns [ks], when
    the assignments to those columns cannot raise. *)
Lemma run_steps_agree ks steps f g :
  (∀ k op s, (k, op) ∈ steps → k ∈ ks → ∃ s', op s = inr s') →
  agree_outside ks f g →
  (run_steps steps f).1 = (run_steps steps g).1.
Proof.
  revert f g. induction steps as [|[k op] steps IH]; intros f g Htot Hfg; [done|].
  assert (Htot' : ∀ k op s, (k, op) ∈ steps → k ∈ ks → ∃ s', op s = inr s').
  { intros ??? Hin. apply Htot. by right. }
  simpl. destruct (decide (k ∈ ks)) as [Hk|Hk].
  - destruct (dict_get k f) as [s|] eqn:Hf.
    + destruct (dict_get k g) as [t|] eqn:Hg.
      2: { apply (agree_get_None _ _ _ _ (agree_sym _ _ _ Hfg)) in Hg. congruence. }
      destruct (Htot k op s ltac:(left) Hk) as [s' ->].
      destruct (Htot k op t ltac:(left) Hk) as [t' ->].
      apply IH; [done|]. by apply agree_set.
    + by rewrite (agree_get_None _ _ _ _ Hfg Hf).
  - rewrite <- (agree_get_outside _ _ _ _ Hfg Hk).
    destruct (dict_get k f) as [s|]; [|done].
    destruct (op s) as [e|s']; [done|].
    apply IH; [done|]. by apply agree_set.
Qed.

Lemma agree_refl ks f : agree_outside ks f f.
Proof. induction f; by constructor. Qed.
End Steps.

(** ** Strings *)

Lemma delete_chars_ext p q s :
  (∀ c, p c = q c) → delete_chars p s = delete_chars q s.
Proof. intros Hpq. induction s as [|c s IH]; simpl; [done|]. by rewrite Hpq, IH. Qed.

Lemma delete_chars_twice p q s :
  delete_chars q (delete_chars p s) = delete_chars (λ c, p c || q c) s.
Proof.
  induction s as [|c s IH]; simpl; [done|].
  destruct (p c); simpl; [done|]. destruct (q c); by rewrite IH.
Qed.

Lemma delete_chars_forall p s :
  string_forall (λ c, negb (p c)) (delete_chars p s) = true.
Proof.
  induction s as [|c s IH]; simpl; [done|].
  destruct (p c) eqn:Hp; simpl; [done|]. by rewrite Hp.
Qed.

Lemma string_forall_impl (p q : ascii → bool) s :
  (∀ c, p c = true → q c = true) →
  string_forall p s = true → string_forall q s = true.
Proof.
  intros Hpq. induction s as [|c s IH]; simpl; [done|].
  intros [Hc Hs]%andb_prop. rewrite (Hpq _ Hc). auto.
Qed.

Lemma remove_all_absent cs c s :
  c ∈ cs → contains_char c (remove_all cs s) = false.
Proof.
  intros Hc. unfold contains_char, remove_all. apply negb_false_iff.
  eapply string_forall_impl; [|apply delete_chars_forall].
  intros d Hd. simpl in *. apply negb_true_iff, bool_decide_eq_false.
  apply negb_true_iff, bool_decide_eq_false in Hd. by intros ->.
Qed.

Lemma replace_salary raw :
  fold_left (λ acc p, re_sub_empty p acc) [Literal "$"; Literal ","] raw
  = remove_all ["$"; ","]%char raw.
Proof.
  simpl. unfold re_sub_empty, remove_all. rewrite delete_chars_twice.
  apply delete_chars_ext. intros c. simpl.
  apply Bool.eq_iff_eq_true.
  rewrite ?orb_true_iff, !bool_decide_eq_true, !elem_of_cons, elem_of_nil.
  tauto.
Qed.

Lemma replace_bonus raw :
  fold_left (λ acc p, re_sub_empty p acc) [Literal "%"] raw
  = remove_all ["%"]%char raw.
Proof.
  simpl. unfold re_sub_empty, remove_all.
  apply delete_chars_ext. intros c. simpl.
  apply Bool.eq_iff_eq_true.
  rewrite ?orb_true_iff, !bool_decide_eq_true, !elem_of_cons, elem_of_nil.
  tauto.
Qed.

Lemma not_word_not_space_deleted s :
  string_forall (λ c, Char.is_word c || Char.is_space c)
    (re_sub_empty NotWordNotSpace s) = true.
Proof.
  unfold re_sub_empty.
  eapply string_forall_impl; [|apply delete_chars_forall].
  intros c. simpl. by destruct (Char.is_word c), (Char.is_space c).
Qed.

(** ** Series *)

Lemma traverse_lookup {A B} (f : A → result B) l ys i x :
  traverse f l = inr ys → l !! i = Some x →
  ∃ y, f x = inr y ∧ ys !! i = Some y.
Proof.
  revert ys i. induction l as [|a l IH]; intros ys i Htr Hi; [done|].
  simpl in Htr. destruct (f a) as [e|b] eqn:Hfa; [done|].
  destruct (traverse f l) as [e|bs]; [done|]. injection Htr as <-.
  destruct i as [|i]; simpl in *.
  - injection Hi as <-. eauto.
  - eauto.
Qed.

Lemma astype_float_lookup s s' i c :
  astype_float s = inr s' → s_values s !! i = Some c →
  ∃ x, cell_to_float c = inr x ∧ s_values s' !! i = Some (Float x).
Proof.
  unfold astype_float. intros Has Hi.
  destruct (traverse cell_to_float (s_values s)) as [e|xs] eqn:Htr; [done|].
  injection Has as <-. simpl.
  destruct (traverse_lookup _ _ _ _ _ Htr Hi) as (x & Hx & Hxs).
  exists x. split; [done|]. by rewrite list_lookup_fmap, Hxs.
Qed.

Lemma astype_float_floats s s' c :
  astype_float s = inr s' → c ∈ s_values s' → ∃ x, c = Float x.
Proof.
  unfold astype_float. intros Has Hc.
  destruct (traverse cell_to_float (s_values s)) as [e|xs]; [done|].
  injection Has as <-. simpl in Hc.
  apply list_elem_of_fmap in Hc as (x & -> & _). eauto.
Qed.

Lemma cell_to_float_Str s x :
  cell_to_float (Str s) = inr x → Float.of_string s = Some x.
Proof. simpl. destruct (Float.of_string s); congruence. Qed.

Lemma column_values_get k (f : frame) s :
  dict_get k f = Some s → column_values k f = s_values s.
Proof. unfold column_values. by intros ->. Qed.

Lemma to_datetime_coerce_lookup `{!DateParser} s i c :
  s_values s !! i = Some c →
  s_values (to_datetime_coerce s) !! i =
    Some (match parse_datetime (s_values s) c with
          | Some ns => Timestamp ns
          | None => NaT
          end).
Proof. intros Hi. unfold to_datetime_coerce. simpl. by rewrite list_lookup_fmap, Hi. Qed.

Lemma str_replace_lookup p s s' i c :
  str_replace p s = inr s' → s_values s !! i = Some c →
  s_values s' !! i = Some (str_replace_cell p c).
Proof.
  unfold str_replace. destruct (s_dtype s); try done.
  intros [= <-] Hi. simpl. by rewrite list_lookup_fmap, Hi.
Qed.

Lemma clean_steps_keys `{!DateParser} :
  clean_steps.*1 = ["Annual Salary"; "Bonus %"; "Hire Date"; "Exit Date";
                    "Full Name"; "Job Title"].
Proof. reflexivity. Qed.

Lemma clean_steps_NoDup `{!DateParser} : NoDup clean_steps.*1.
Proof. rewrite clean_steps_keys. compute_done. Qed.

(** ** [clean_data] *)

Section CleanData.
Context {E : Type} `{!Engine E} `{!DateParser}.
Implicit Types (st : state E) (df : ref) (f : frame).

Lemma with_heap_id st : with_heap st (heap st) = st.
Proof. by destruct st. Qed.

Lemma clean_data_dangling st df :
  heap st !! df = None → clean_data df st = (inl TypeError, st).
Proof.
  intros Hdf. unfold clean_data, getitem, deref, mbind, M_bind. by rewrite Hdf.
Qed.


Lemma runs_nil df : runs (E:=E) df (mret df) [].
Proof.
  intros st f Hdf. simpl. rewrite list_insert_id by done.
  by rewrite with_heap_id.
Qed.

Lemma runs_cons df k op rest steps :
  runs df rest steps →
  runs (E:=E) df (s ← getitem df k; s' ← lift (op s); setitem df k s';; rest)
       ((k, op) :: steps).
Proof.
  intros Hrest st f Hdf. pose proof (lookup_lt_Some _ _ _ Hdf) as Hlt.
  unfold getitem, setitem, deref, lift, raise, mbind, mret, M_bind, M_ret.
  cbn [run_steps]. rewrite Hdf.
  destruct (dict_get k f) as [s|].
  2: { cbn. rewrite list_insert_id by done. by rewrite with_heap_id. }
  destruct (op s) as [e|s'].
  { cbn. rewrite list_insert_id by done. by rewrite with_heap_id. }
  cbv beta iota zeta. rewrite Hdf.
  erewrite Hrest by (cbn [heap]; by apply list_lookup_insert_eq).
  cbn [heap]. by rewrite list_insert_insert_eq.
Qed.

Lemma runs_cons_total df k g rest steps :
  runs df rest steps →
  runs (E:=E) df (s ← getitem df k; setitem df k (g s);; rest)
       ((k, λ s, inr (g s)) :: steps).
Proof.
  intros Hrest st f Hdf. pose proof (lookup_lt_Some _ _ _ Hdf) as Hlt.
  unfold getitem, setitem, deref, lift, raise, mbind, mret, M_bind, M_ret.
  cbn [run_steps]. rewrite Hdf.
  destruct (dict_get k f) as [s|].
  2: { cbn. rewrite list_insert_id by done. by rewrite with_heap_id. }
  cbv beta iota zeta. rewrite Hdf.
  erewrite Hrest by (cbn [heap]; by apply list_lookup_insert_eq).
  cbn [heap]. by rewrite list_insert_insert_eq.
Qed.

Lemma clean_data_runs df : runs (E:=E) df (clean_data df) clean_steps.
Proof.
  unfold clean_data, clean_steps.
  repeat first [apply runs_cons | apply runs_cons_total | apply runs_nil].
Qed.

(** A call of [clean_data] that returns: the frame it leaves in the
    object, and the reference it returns. *)
Lemma clean_data_returns st df f r st' :
  heap st !! df = Some f →
  clean_data df st = (inr r, st') →
  r = df ∧
  run_steps clean_steps f = (None, (run_steps clean_steps f).2) ∧
  st' = with_heap st (<[df := (run_steps clean_steps f).2]> (heap st)) ∧
  heap st' !! r = Some (run_steps clean_steps f).2.
Proof.
  intros Hdf Hrun. rewrite (clean_data_runs df st f Hdf) in Hrun.
  destruct (run_steps clean_steps f) as [[e|] f'] eqn:Hsteps; simpl in *; [done|].
  injection Hrun as <- <-. split_and!; [done..|].
  simpl. apply list_lookup_insert_eq. by eapply lookup_lt_Some.
Qed.

Lemma cleaned_column st df f r st' k op :
  heap st !! df = Some f →
  clean_data df st = (inr r, st') →
  (k, op) ∈ clean_steps →
  ∃ f' s s', heap st' !! r = Some f' ∧ dict_get k f = Some s ∧ op s = inr s'
             ∧ dict_get k f' = Some s'.
Proof.
  intros Hdf Hrun Hin.
  destruct (clean_data_returns _ _ _ _ _ Hdf Hrun) as (-> & Hsteps & -> & Hf').
  destruct (run_steps_ok _ _ _ _ _ clean_steps_NoDup Hsteps Hin)
    as (s & s' & ? & ? & ?).
  eauto 10.
Qed.

(** C1. When [clean_data] returns, the salary of every row that held a
  string is the float read from that string with every dollar sign and
  comma removed, and its bonus the float read from the string with every
  percent sign removed; the text converted holds none of these symbols,
  and every value of the two columns is a float. In particular
  ["$50,000"] becomes 50000.0 and ["10%"] becomes 10.0. *)
Theorem clean_data_salary_bonus st df f r st' :
  heap st !! df = Some f →
  clean_data df st = (inr r, st') →
  ∃ f', heap st' !! r = Some f' ∧
    (∀ i raw, column_values "Annual Salary" f !! i = Some (Str raw) →
       ∃ x, Float.of_string (remove_all ["$"; ","]%char raw) = Some x ∧
            column_values "Annual Salary" f' !! i = Some (Float x) ∧
            contains_char "$" (remove_all ["$"; ","]%char raw) = false ∧
            contains_char "," (remove_all ["$"; ","]%char raw) = false) ∧
    (∀ i raw, column_values "Bonus %" f !! i = Some (Str raw) →
       ∃ x, Float.of_string (remove_all ["%"]%char raw) = Some x ∧
            column_values "Bonus %" f' !! i = Some (Float x) ∧
            contains_char "%" (remove_all ["%"]%char raw) = false) ∧
    (∀ c, c ∈ column_values "Annual Salary" f' ∨
          c ∈ column_values "Bonus %" f' → ∃ x, c = Float x) ∧
    (∀ i, column_values "Annual Salary" f !! i = Some (Str "$50,000") →
          column_values "Annual Salary" f' !! i
          = Some (Float (Float.of_Z 50000))) ∧
    (∀ i, column_values "Bonus %" f !! i = Some (Str "10%") →
          column_values "Bonus %" f' !! i = Some (Float (Float.of_Z 10))).
Proof.
  intros Hdf Hrun.
  destruct (cleaned_column _ _ _ _ _ "Annual Salary" _ Hdf Hrun
              ltac:(unfold clean_steps; repeat constructor))
    as (f' & sal & sal' & Hf' & Hsal & Hsal_op & Hsal').
  destruct (cleaned_column _ _ _ _ _ "Bonus %" _ Hdf Hrun
              ltac:(unfold clean_steps; repeat constructor))
    as (f'' & bon & bon' & Hf'' & Hbon & Hbon_op & Hbon').
  assert (f'' = f') as -> by congruence.
  exists f'. split; [done|].
  rewrite (column_values_get _ _ _ Hsal), (column_values_get _ _ _ Hsal'),
    (column_values_get _ _ _ Hbon), (column_values_get _ _ _ Hbon').
  assert (Hsalary : ∀ i raw, s_values sal !! i = Some (Str raw) →
    ∃ x, Float.of_string (remove_all ["$"; ","]%char raw) = Some x ∧
         s_values sal' !! i = Some (Float x)).
  { intros i raw Hi.
    destruct (astype_float_lookup _ _ i (replace_cell [Literal "$"; Literal ","] (Str raw)) Hsal_op)
      as (x & Hx & Hx').
    { unfold replace_regex; simpl. by rewrite list_lookup_fmap, Hi. }
    unfold replace_cell in Hx. rewrite replace_salary in Hx.
    apply cell_to_float_Str in Hx. eauto. }
  assert (Hbonus : ∀ i raw, s_values bon !! i = Some (Str raw) →
    ∃ x, Float.of_string (remove_all ["%"]%char raw) = Some x ∧
         s_values bon' !! i = Some (Float x)).
  { intros i raw Hi.
    destruct (astype_float_lookup _ _ i (replace_cell [Literal "%"] (Str raw)) Hbon_op)
      as (x & Hx & Hx').
    { unfold replace_regex; simpl. by rewrite list_lookup_fmap, Hi. }
    unfold replace_cell in Hx. rewrite replace_bonus in Hx.
    apply cell_to_float_Str in Hx. eauto. }
  split_and!.
  - intros i raw Hi. destruct (Hsalary i raw Hi) as (x & Hx & Hx').
    exists x. split_and!; [done..| |].
    + by apply remove_all_absent; left.
    + by apply remove_all_absent; right; left.
  - intros i raw Hi. destruct (Hbonus i raw Hi) as (x & Hx & Hx').
    exists x. split_and!; [done..|]. by apply remove_all_absent; left.
  - intros c [Hc|Hc]; eapply astype_float_floats; [exact Hsal_op| |exact Hbon_op|]; done.
  - intros i Hi. destruct (Hsalary i _ Hi) as (x & Hx & Hx').
    vm_compute in Hx. injection Hx as <-. exact Hx'.
  - intros i Hi. destruct (Hbonus i _ Hi) as (x & Hx & Hx').
    vm_compute in Hx. injection Hx as <-. exact Hx'.
Qed.

(** C5. A hire date or exit date that the parser cannot read becomes
  [NaT] in the cleaned batch; and whether [clean_data] returns or
  raises, and what it raises, does not depend on what the two date
  columns hold. *)
Theorem clean_data_dates st df f :
  heap st !! df = Some f →
  (∀ r st', clean_data df st = (inr r, st') →
     ∃ f', heap st' !! r = Some f' ∧
       ∀ k i c, k ∈ ["Hire Date"; "Exit Date"] →
         column_values k f !! i = Some c →
         parse_datetime (column_values k f) c = None →
         column_values k f' !! i = Some NaT) ∧
  (∀ st2 f2, heap st2 !! df = Some f2 →
     agree_outside ["Hire Date"; "Exit Date"] f f2 →
     (clean_data df st2).1 = (clean_data df st).1).
Proof.
  intros Hdf. split.
  - intros r st' Hrun.
    destruct (cleaned_column _ _ _ _ _ "Hire Date" _ Hdf Hrun
                ltac:(unfold clean_steps; repeat constructor))
      as (f' & h & h' & Hf' & Hh & [= <-] & Hh').
    destruct (cleaned_column _ _ _ _ _ "Exit Date" _ Hdf Hrun
                ltac:(unfold clean_steps; repeat constructor))
      as (f'' & x & x' & Hf'' & Hx & [= <-] & Hx').
    assert (f'' = f') as -> by congruence.
    exists f'. split; [done|]. intros k i c Hk Hi Hparse.
    apply elem_of_cons in Hk as [->|Hk]; [|apply list_elem_of_singleton in Hk as ->].
    + rewrite (column_values_get _ _ _ Hh) in Hi, Hparse.
      rewrite (column_values_get _ _ _ Hh').
      by rewrite (to_datetime_coerce_lookup _ _ _ Hi), Hparse.
    + rewrite (column_values_get _ _ _ Hx) in Hi, Hparse.
      rewrite (column_values_get _ _ _ Hx').
      by rewrite (to_datetime_coerce_lookup _ _ _ Hi), Hparse.
  - intros st2 f2 Hdf2 Hagree.
    rewrite (clean_data_runs df st f Hdf), (clean_data_runs df st2 f2 Hdf2).
    cbn [fst]. f_equal. symmetry.
    apply (run_steps_agree ["Hire Date"; "Exit Date"]); [|done].
    intros k op s Hin Hk. unfold clean_steps in Hin.
    repeat (apply elem_of_cons in Hin as [[= -> ->]|Hin]);
      first [by eauto | by apply elem_of_nil in Hin | absurd_elem Hk].
Qed.

(** C6 (as amended). After [clean_data] the strings of the full-name and
  job-title columns are the raw strings with every character deleted
  that is neither a word character nor whitespace: what remains is
  alphanumeric, an underscore, or whitespace. *)
Theorem clean_data_names st df f r st' :
  heap st !! df = Some f →
  clean_data df st = (inr r, st') →
  ∃ f', heap st' !! r = Some f' ∧
    ∀ k i c, k ∈ ["Full Name"; "Job Title"] →
      column_values k f !! i = Some c →
      column_values k f' !! i = Some (str_replace_cell NotWordNotSpace c) ∧
      ∀ s, str_replace_cell NotWordNotSpace c = Str s →
        string_forall (λ a, Char.is_word a || Char.is_space a) s = true.
Proof.
  intros Hdf Hrun.
  destruct (cleaned_column _ _ _ _ _ "Full Name" _ Hdf Hrun
              ltac:(unfold clean_steps; repeat constructor))
    as (f' & n & n' & Hf' & Hn & Hn_op & Hn').
  destruct (cleaned_column _ _ _ _ _ "Job Title" _ Hdf Hrun
              ltac:(unfold clean_steps; repeat constructor))
    as (f'' & t & t' & Hf'' & Ht & Ht_op & Ht').
  assert (f'' = f') as -> by congruence.
  exists f'. split; [done|]. intros k i c Hk Hi. split.
  - apply elem_of_cons in Hk as [->|Hk]; [|apply list_elem_of_singleton in Hk as ->].
    + rewrite (column_values_get _ _ _ Hn) in Hi. rewrite (column_values_get _ _ _ Hn').
      eapply str_replace_lookup; eauto.
    + rewrite (column_values_get _ _ _ Ht) in Hi. rewrite (column_values_get _ _ _ Ht').
      eapply str_replace_lookup; eauto.
  - intros s Hs. destruct c; try done. injection Hs as <-.
    apply not_word_not_space_deleted.
Qed.

(** C7 (as amended). [clean_data] changes the DataFrame object it is
  given, and nothing else: when it returns, it returns the reference it
  received; the object holds the cleaned columns (those assigned before
  the exception, when it raises); every other object, the files, the
  engine, the calls made and the output are as before. *)
Theorem clean_data_in_place st df :
  let r := clean_data df st in
  (∀ x, r.1 = inr x → x = df) ∧
  files r.2 = files st ∧ es r.2 = es st ∧ calls r.2 = calls st ∧
  stdout r.2 = stdout st ∧
  length (heap r.2) = length (heap st) ∧
  (∀ l, l ≠ df → heap r.2 !! l = heap st !! l) ∧
  (∀ f, heap st !! df = Some f →
        heap r.2 !! df = Some (run_steps clean_steps f).2).
Proof.
  intros r. subst r. destruct (heap st !! df) as [f|] eqn:Hdf.
  - rewrite (clean_data_runs df st f Hdf). split_and!; try done.
    + intros x. destruct (run_steps clean_steps f).1; simpl; congruence.
    + simpl. apply length_insert.
    + intros l Hl. simpl. by apply list_lookup_insert_ne.
    + intros ? [= <-]. simpl. apply list_lookup_insert_eq.
      by eapply lookup_lt_Some.
  - rewrite (clean_data_dangling st df Hdf). by split_and!.
Qed.
End CleanData.

(** ** Deduplication *)

Section Dedup.
Implicit Types (seen xs : list cell).

Lemma keep_first_spec seen xs :
  let ys := keep_rows (duplicated seen xs) xs in
  NoDup (dup_key <$> ys) ∧
  (∀ y, y ∈ ys → dup_key y ∉ seen) ∧
  (∀ x, x ∈ xs → dup_key x ∈ seen ∨ dup_key x ∈ dup_key <$> ys).
Proof.
  revert seen. induction xs as [|x xs IH]; intros seen; simpl.
  { split_and!; [constructor | by intros ? ?%elem_of_nil..]. }
  destruct (IH (dup_key x :: seen)) as (Hnd & Hfresh & Hcover).
  case_bool_decide as Hseen.
  - split_and!; [done| |].
    + intros y Hy Hin. apply (Hfresh y Hy). by right.
    + intros x' [->|Hx']%elem_of_cons; [by left|].
      destruct (Hcover x' Hx') as [[->|?]%elem_of_cons|?]; auto.
  - split_and!.
    + rewrite fmap_cons. apply NoDup_cons. split; [|done].
      intros (y & Hkey & Hy)%list_elem_of_fmap.
      apply (Hfresh y Hy). rewrite Hkey. by left.
    + intros y [->|Hy]%elem_of_cons; [done|].
      intros Hin. apply (Hfresh y Hy). by right.
    + intros x' [->|Hx']%elem_of_cons.
      * right. rewrite fmap_cons. by left.
      * destruct (Hcover x' Hx') as [[->|?]%elem_of_cons|?]; auto.
        -- right. rewrite fmap_cons. by left.
        -- right. rewrite fmap_cons. by right.
Qed.

Lemma filter_none {A} (P : A → Prop) `{!∀ x, Decision (P x)} (l : list A) :
  (∀ x, x ∈ l → ¬ P x) → filter P l = [].
Proof.
  induction l as [|a l IH]; intros Hl; [done|].
  rewrite filter_cons_False by (apply Hl; left). apply IH.
  intros x Hx. apply Hl. by right.
Qed.

Lemma count_one {A B} `{EqDecision B} (g : A → B) (l : list A) (v : A) :
  NoDup (g <$> l) → g v ∈ g <$> l →
  length (filter (λ x, g x = g v) l) = 1.
Proof.
  induction l as [|a l IH]; intros Hnd Hin; [by apply elem_of_nil in Hin|].
  rewrite fmap_cons in Hnd, Hin. apply NoDup_cons in Hnd as [Ha Hnd].
  destruct (decide (g a = g v)) as [Heq|Hne].
  - rewrite filter_cons_True by done. simpl. f_equal.
    apply length_zero_iff_nil, filter_none.
    intros x Hx Hgx. apply Ha. rewrite Heq, <- Hgx. by apply list_elem_of_fmap_2.
  - rewrite filter_cons_False by done. apply IH; [done|].
    apply elem_of_cons in Hin as [?|?]; [congruence|done].
Qed.
End Dedup.

(** The identifiers of a batch that went through lines 43 and 44. *)
Lemma deduplicated_ids exclude_column (f0 f1 f2 : frame) :
  drop_column exclude_column f0 = inr f1 →
  drop_duplicates "Employee ID" f1 = inr f2 →
  column_values "Employee ID" f2 =
    keep_rows (duplicated [] (column_values "Employee ID" f0))
              (column_values "Employee ID" f0).
Proof.
  unfold drop_column, drop_duplicates. intros Hdrop Hdup.
  destruct (dict_get exclude_column f0); [|done]. injection Hdrop as <-.
  destruct (decide ("Employee ID" = exclude_column)) as [<-|Hne].
  { by rewrite dict_get_filter_eq in Hdup. }
  rewrite dict_get_filter_ne in Hdup by done.
  unfold column_values at 2 3.
  destruct (dict_get "Employee ID" f0) as [ids|] eqn:Hids; [|done].
  injection Hdup as <-. unfold column_values.
  rewrite (dict_get_fmap (λ s, Series (s_dtype s) (keep_rows _ (s_values s)))).
  by rewrite dict_get_filter_ne, Hids by done.
Qed.

(** ** Rows *)

Lemma any_null_false (f : frame) k s c :
  any_null f = false → (k, s) ∈ f → c ∈ s_values s → isnull c = false.
Proof.
  intros Hnull Hks Hc. apply not_true_is_false. intros Hc'.
  apply not_true_iff_false in Hnull. apply Hnull.
  unfold any_null. apply existsb_exists. exists (k, s). split.
  - by apply list_elem_of_In.
  - apply existsb_exists. exists c. split; [by apply list_elem_of_In|done].
Qed.

Lemma any_null_true (f : frame) k s c :
  (k, s) ∈ f → c ∈ s_values s → isnull c = true → any_null f = true.
Proof.
  intros Hks Hc Hnull. destruct (any_null f) eqn:Hf; [done|].
  by rewrite (any_null_false _ _ _ _ Hf Hks Hc) in Hnull.
Qed.

Lemma column_values_elem (f : frame) k c :
  c ∈ column_values k f → ∃ s, (k, s) ∈ f ∧ c ∈ s_values s.
Proof.
  unfold column_values. destruct (dict_get k f) as [s|] eqn:Hs.
  - intros Hc. exists s. split; [|done]. by apply dict_get_elem.
  - by intros ?%elem_of_nil.
Qed.

Lemma row_at_elem (f : frame) i k v :
  (k, v) ∈ row_at f i → ∃ s, (k, s) ∈ f ∧ v ∈ s_values s.
Proof.
  unfold row_at. intros ([k' s] & Hin & Hv)%list_elem_of_omap. simpl in Hv.
  destruct (s_values s !! i) as [v'|] eqn:Hi; [|done].
  injection Hv as -> ->. exists s. split; [done|].
  by eapply list_elem_of_lookup_2.
Qed.

Lemma iterrows_no_null (f : frame) :
  any_null f = false → Forall no_null_id (iterrows f).
Proof.
  intros Hnull. apply Forall_forall. intros r Hr v Hv.
  apply list_elem_of_fmap in Hr as (i & -> & _).
  apply dict_get_elem, row_at_elem in Hv as (s & Hs & Hv).
  by eapply any_null_false.
Qed.

(** ** [index_data] *)

Section IndexData.
Context {E : Type} `{!Engine E} `{!DateParser}.
Implicit Types (st : state E) (df : ref) (f : frame).

Lemma derive_run (op : frame → result frame) st df f :
  heap st !! df = Some f →
  derive op df st =
    match op f with
    | inl e => (inl e, st)
    | inr f' => (inr (length (heap st)), with_heap st (heap st ++ [f']))
    end.
Proof.
  intros Hdf. unfold derive, deref, lift, new_frame, mbind, M_bind.
  rewrite Hdf. by destruct (op f).
Qed.

Lemma load_batch_run st exclude_column :
  load_batch exclude_column st =
    match files st !! "employee_data.csv" with
    | None => (inl (FileNotFoundError "employee_data.csv"), st)
    | Some f0 =>
        match drop_column exclude_column f0 with
        | inl e => (inl e, with_heap st (heap st ++ [f0]))
        | inr f1 =>
            match drop_duplicates "Employee ID" f1 with
            | inl e => (inl e, with_heap st (heap st ++ [f0; f1]))
            | inr f2 =>
                (outcome (length (heap st) + 2) (run_steps clean_steps f2).1,
                 with_heap st
                   (heap st ++ [f0; f1; (run_steps clean_steps f2).2]))
            end
        end
    end.
Proof.
  unfold load_batch, read_csv. unfold mbind at 1 2 3. unfold M_bind.
  destruct (files st !! "employee_data.csv") as [f0|]; [|done].
  unfold new_frame at 1.
  rewrite (derive_run _ _ _ f0) by (cbn [heap]; apply list_lookup_middle; done).
  cbn [heap]. destruct (drop_column exclude_column f0) as [e|f1]; [done|].
  rewrite (derive_run _ _ _ f1).
  2: { cbn [heap with_heap]. by apply list_lookup_middle. }
  cbn [heap with_heap files es calls stdout].
  destruct (drop_duplicates "Employee ID" f1) as [e|f2].
  { by rewrite <- !(assoc_L (++)). }
  rewrite !length_app. simpl length.
  rewrite (clean_data_runs _ _ f2).
  2: { cbn [heap]. apply list_lookup_middle. rewrite !length_app. simpl. lia. }
  f_equal.
  - f_equal. lia.
  - unfold with_heap. cbn [heap files es calls stdout]. f_equal.
    rewrite <- !(assoc_L (++)). simpl.
    replace (length (heap st) + 1 + 1) with (length (heap st) + 2) by lia.
    by rewrite insert_app_r.
Qed.

Lemma load_batch_returns st exclude_column df st' :
  load_batch exclude_column st = (inr df, st') →
  ∃ f0 f1 f2,
    files st !! "employee_data.csv" = Some f0 ∧
    drop_column exclude_column f0 = inr f1 ∧
    drop_duplicates "Employee ID" f1 = inr f2 ∧
    heap st' !! df = Some (run_steps clean_steps f2).2.
Proof.
  rewrite load_batch_run.
  destruct (files st !! "employee_data.csv") as [f0|]; [|done].
  destruct (drop_column exclude_column f0) as [|f1] eqn:Hdrop; [done|].
  destruct (drop_duplicates "Employee ID" f1) as [|f2] eqn:Hdup; [done|].
  destruct (run_steps clean_steps f2).1; [done|]. simpl.
  intros [= <- <-]. exists f0, f1, f2. split_and!; [done..|].
  simpl. rewrite lookup_app_r by lia.
  by replace (length (heap st) + 2 - length (heap st)) with 2 by lia.
Qed.

Lemma load_batch_world st exclude_column :
  let st' := (load_batch exclude_column st).2 in
  files st' = files st ∧ es st' = es st ∧ calls st' = calls st ∧
  stdout st' = stdout st.
Proof. rewrite load_batch_run. repeat case_match; done. Qed.

(** C3. In the cleaned batch that [index_data] builds, no two rows carry
  the same identifier, and every identifier of the CSV file, however
  many rows carry it there, is carried by exactly one row. *)
Theorem load_batch_unique_ids st exclude_column df st' :
  load_batch exclude_column st = (inr df, st') →
  ∃ f0 f',
    files st !! "employee_data.csv" = Some f0 ∧
    heap st' !! df = Some f' ∧
    NoDup (dup_key <$> column_values "Employee ID" f') ∧
    ∀ v, v ∈ column_values "Employee ID" f0 →
      length (filter (λ x, dup_key x = dup_key v)
                     (column_values "Employee ID" f')) = 1.
Proof.
  intros (f0 & f1 & f2 & Hcsv & Hdrop & Hdup & Hf')%load_batch_returns.
  assert (Hids : column_values "Employee ID" (run_steps clean_steps f2).2
                 = keep_rows (duplicated [] (column_values "Employee ID" f0))
                             (column_values "Employee ID" f0)).
  { rewrite <- (deduplicated_ids _ _ _ _ Hdrop Hdup). unfold column_values.
    by rewrite run_steps_other by (rewrite clean_steps_keys; compute_done). }
  destruct (keep_first_spec [] (column_values "Employee ID" f0))
    as (Hnd & _ & Hcover).
  exists f0, (run_steps clean_steps f2).2. rewrite Hids.
  split_and!; [done..|].
  intros v Hv. apply count_one; [done|].
  by destruct (Hcover v Hv) as [?%elem_of_nil|?].
Qed.

Lemma index_rows_spec collection_name rows st r st' :
  index_rows collection_name rows st = (r, st') →
  heap st' = heap st ∧ files st' = files st ∧
  ∃ cs ls,
    calls st' = calls st ++ cs ∧ stdout st' = stdout st ++ ls ∧
    Forall (sound_upsert collection_name) cs ∧
    (Forall no_null_id rows → skip_line ∉ ls).
Proof.
  revert st r st'. induction rows as [|document rest IH]; intros st r st' Hrun.
  { injection Hrun as <- <-. split_and!; [done..|]. exists [], [].
    rewrite !app_nil_r. split_and!; [done..|constructor|].
    by intros _ ?%elem_of_nil. }
  cbn [index_rows] in Hrun. unfold mbind, M_bind, mret, M_ret, raise in Hrun.
  destruct (dict_get "Employee ID" document) as [employee_id|] eqn:Hid.
  2: { injection Hrun as <- <-. split_and!; [done..|]. exists [], [].
       rewrite !app_nil_r. split_and!; [done..|constructor|].
       by intros _ ?%elem_of_nil. }
  destruct (isnull employee_id) eqn:Hnull.
  - unfold print at 1 in Hrun. cbv beta iota in Hrun.
    apply IH in Hrun as (Hheap & Hfiles & cs & ls & Hcalls & Hout & Hcs & Hls).
    cbn [heap files calls stdout] in *.
    split_and!; [done..|]. exists cs, (skip_line :: ls).
    split_and!; [done| |done|].
    + rewrite Hout. by rewrite <- (assoc_L (++)).
    + intros [Hdoc _]%Forall_cons. by rewrite (Hdoc _ Hid) in Hnull.
  - unfold client at 1 in Hrun. cbv beta iota in Hrun.
    destruct (es_index collection_name employee_id (to_dict document) (es st))
      as [[e|[]] e'].
    + injection Hrun as <- <-. cbn [heap files calls stdout].
      split_and!; [done..|].
      exists [CallIndex collection_name employee_id (to_dict document)], [].
      rewrite !app_nil_r. split_and!; [done..| |].
      * repeat constructor. by exists employee_id, (to_dict document).
      * by intros _ ?%elem_of_nil.
    + unfold print at 1 in Hrun. cbv beta iota in Hrun.
      apply IH in Hrun as (Hheap & Hfiles & cs & ls & Hcalls & Hout & Hcs & Hls).
      cbn [heap files calls stdout] in *.
      split_and!; [done..|].
      exists (CallIndex collection_name employee_id (to_dict document) :: cs),
        ([Text "Indexed document with Employee ID: "; Subst employee_id] :: ls).
      split_and!.
      * rewrite Hcalls. by rewrite <- (assoc_L (++)).
      * rewrite Hout. by rewrite <- (assoc_L (++)).
      * constructor; [|done]. by exists employee_id, (to_dict document).
      * intros [_ Hrest]%Forall_cons [?|?]%elem_of_cons; [done|].
        by apply Hls.
Qed.

Lemma index_data_run collection_name exclude_column st :
  index_data collection_name exclude_column st =
    match load_batch exclude_column st with
    | (inl e, st1) => (inl e, st1)
    | (inr df, st1) =>
        match heap st1 !! df with
        | None => (inl TypeError, st1)
        | Some f =>
            if any_null f then print null_batch_line st1
            else index_rows collection_name (iterrows f) st1
        end
    end.
Proof.
  unfold index_data, deref, mbind, M_bind.
  destruct (load_batch exclude_column st) as [[e|df] st1]; [done|].
  destruct (heap st1 !! df) as [f|]; [|done]. by destruct (any_null f).
Qed.

(** A null anywhere in the cleaned batch: the batch is turned down
    before the loop. *)
Lemma null_batch_rejected collection_name exclude_column st df st1 f :
  load_batch exclude_column st = (inr df, st1) →
  heap st1 !! df = Some f →
  any_null f = true →
  index_data collection_name exclude_column st =
    (inr (), State (heap st1) (files st) (es st) (calls st)
                   (stdout st ++ [null_batch_line])).
Proof.
  intros Hload Hdf Hnull. rewrite index_data_run, Hload, Hdf, Hnull.
  pose proof (load_batch_world st exclude_column) as Hworld.
  rewrite Hload in Hworld. simpl in Hworld. unfold print.
  by destruct Hworld as (-> & -> & -> & ->).
Qed.

Lemma index_data_effects collection_name exclude_column st :
  let st' := (index_data collection_name exclude_column st).2 in
  ∃ cs ls,
    calls st' = calls st ++ cs ∧ stdout st' = stdout st ++ ls ∧
    Forall (sound_upsert collection_name) cs ∧ skip_line ∉ ls.
Proof.
  rewrite index_data_run.
  pose proof (load_batch_world st exclude_column) as Hworld.
  destruct (load_batch exclude_column st) as [[e|df] st1]; simpl in Hworld;
    destruct Hworld as (_ & _ & Hcalls & Hout).
  { exists [], []. rewrite !app_nil_r. split_and!; [done..|constructor|].
    by intros ?%elem_of_nil. }
  destruct (heap st1 !! df) as [f|].
  2: { exists [], []. rewrite !app_nil_r. split_and!; [done..|constructor|].
       by intros ?%elem_of_nil. }
  destruct (any_null f) eqn:Hnull.
  - exists [], [null_batch_line]. simpl. rewrite app_nil_r, Hout.
    split_and!; [done..|constructor|].
    by intros [?|?%elem_of_nil]%elem_of_cons.
  - destruct (index_rows collection_name (iterrows f) st1) as [r st'] eqn:Hrun.
    apply index_rows_spec in Hrun
      as (_ & _ & cs & ls & Hcs & Hls & Hsound & Hskip). simpl.
    exists cs, ls. rewrite <- Hcalls, <- Hout. split_and!; [done..|].
    by apply Hskip, iterrows_no_null.
Qed.

(** C2. If some value of some column of the cleaned batch is null,
  [index_data] makes no call to the engine: it prints the diagnostic of
  the batch check and returns, the engine untouched. *)
Theorem null_batch_no_upsert collection_name exclude_column st df st1 f k s c :
  load_batch exclude_column st = (inr df, st1) →
  heap st1 !! df = Some f →
  (k, s) ∈ f → c ∈ s_values s → isnull c = true →
  let r := index_data collection_name exclude_column st in
  r.1 = inr () ∧ calls r.2 = calls st ∧ es r.2 = es st ∧
  stdout r.2 = stdout st ++ [null_batch_line].
Proof.
  intros Hload Hdf Hks Hc Hnull r. subst r.
  rewrite (null_batch_rejected _ _ _ _ _ _ Hload Hdf
             (any_null_true _ _ _ _ Hks Hc Hnull)).
  by split_and!.
Qed.

(** Every upsert that [index_data] makes carries an identifier that is
  not null; and when a row of the cleaned batch has a null identifier, the
  batch check turns the whole batch down: the diagnostic printed is that
  of the batch, and no row is sent to the engine. *)
Theorem null_id_never_upserted collection_name exclude_column st :
  let st' := (index_data collection_name exclude_column st).2 in
  (∃ cs, calls st' = calls st ++ cs ∧
         Forall (λ c, ∃ id doc, c = CallIndex collection_name id doc
                                ∧ isnull id = false) cs) ∧
  (∀ df st1 f v,
     load_batch exclude_column st = (inr df, st1) →
     heap st1 !! df = Some f →
     v ∈ column_values "Employee ID" f → isnull v = true →
     calls st' = calls st ∧ stdout st' = stdout st ++ [null_batch_line]).
Proof.
  intros st'. split.
  - destruct (index_data_effects collection_name exclude_column st)
      as (cs & ls & Hcs & _ & Hsound & _). by exists cs.
  - intros df st1 f v Hload Hdf (s & Hs & Hv)%column_values_elem Hnull.
    subst st'.
    by rewrite (null_batch_rejected _ _ _ _ _ _ Hload Hdf
                  (any_null_true _ _ _ _ Hs Hv Hnull)).
Qed.

(** C10. [index_data] never prints "Skipping document with null Employee
  ID": when an identifier of the cleaned batch is null, the batch check
  has already ended the call, before the loop over the rows. *)
Theorem skip_branch_unreachable collection_name exclude_column st :
  (∃ ls, stdout (index_data collection_name exclude_column st).2
         = stdout st ++ ls ∧ skip_line ∉ ls) ∧
  (∀ df st1 f v,
     load_batch exclude_column st = (inr df, st1) →
     heap st1 !! df = Some f →
     v ∈ column_values "Employee ID" f → isnull v = true →
     index_data collection_name exclude_column st =
       (inr (), State (heap st1) (files st) (es st) (calls st)
                      (stdout st ++ [null_batch_line]))).
Proof.
  split.
  - destruct (index_data_effects collection_name exclude_column st)
      as (cs & ls & _ & Hls & _ & Hskip). by exists ls.
  - intros df st1 f v Hload Hdf (s & Hs & Hv)%column_values_elem Hnull.
    by eapply null_batch_rejected, any_null_true.
Qed.
End IndexData.

(** ** Calls to the engine *)

Section Gateway.
Context {E : Type} `{!Engine E} `{!DateParser}.
Implicit Types (st : state E) (df : ref) (f : frame).

(** C8. When the engine answers a delete with [NotFoundError],
  [del_emp_by_id] prints "Employee ID: <id> not found." and returns;
  any other exception of the engine reaches the caller, with nothing
  printed; a delete that succeeds prints "Deleted employee with ID:
  <id>". *)
Theorem delete_not_found collection_name employee_id st e' :
  let log := calls st ++ [CallDelete collection_name employee_id] in
  (es_delete collection_name employee_id (es st) = (inl NotFoundError, e') →
   del_emp_by_id collection_name employee_id st =
     (inr (), State (heap st) (files st) e' log
                (stdout st ++ [[Text "Employee ID: "; Subst employee_id;
                                Text " not found."]]))) ∧
  (∀ x, x ≠ NotFoundError →
   es_delete collection_name employee_id (es st) = (inl x, e') →
   del_emp_by_id collection_name employee_id st =
     (inl x, State (heap st) (files st) e' log (stdout st))) ∧
  (es_delete collection_name employee_id (es st) = (inr (), e') →
   del_emp_by_id collection_name employee_id st =
     (inr (), State (heap st) (files st) e' log
                (stdout st ++ [[Text "Deleted employee with ID: ";
                                Subst employee_id]]))).
Proof.
  intros log. unfold del_emp_by_id, try_except, client, print, mbind, M_bind.
  split_and!.
  - by intros ->.
  - intros x Hx ->. unfold is_not_found. by rewrite bool_decide_eq_false_2.
  - by intros ->.
Qed.

(** C9 (as amended). [search_by_column] makes one search call, whose body
  is the match query [{"query": {"match": {column_name: column_value}}}],
  and returns [response['hits']['hits']]. *)
Theorem search_by_column_match collection_name column_name column_value
    st response e' hits found :
  let body :=
    PDict [("query", PDict [("match",
      PDict [(column_name, PVal column_value)])])] in
  es_search collection_name body (es st) = (inr response, e') →
  subscript response "hits" = inr hits →
  subscript hits "hits" = inr found →
  search_by_column collection_name column_name column_value st =
    (inr found, State (heap st) (files st) e'
                  (calls st ++ [CallSearch collection_name body])
                  (stdout st)).
Proof.
  intros body Hsearch Hhits Hfound.
  unfold search_by_column, client, lift, mbind, M_bind. fold body.
  by rewrite Hsearch, Hhits, Hfound.
Qed.
End Gateway.

(** ** Shapes *)

Section Shapes.
Implicit Types (f g : frame).

Lemma same_shape_refl f : same_shape f f.
Proof. induction f; by constructor. Qed.

Lemma same_shape_trans f g h : same_shape f g → same_shape g h → same_shape f h.
Proof.
  intros Hfg. revert h. induction Hfg as [|c d f g [Hk Hl] _ IH]; intros h Hgh.
  - inversion Hgh. constructor.
  - inversion Hgh as [|? e ? h' [Hk' Hl'] Hrest]; subst. constructor.
    + split; congruence.
    + by apply IH.
Qed.

Lemma same_shape_names f g : same_shape f g → g.*1 = f.*1.
Proof.
  induction 1 as [|c d f g [Hk _] _ IH]; [done|].
  rewrite !fmap_cons. by rewrite Hk, IH.
Qed.

Lemma same_shape_has_rows n f g : same_shape f g → has_rows n f → has_rows n g.
Proof.
  unfold has_rows. induction 1 as [|c d f g [_ Hl] _ IH]; intros Hf; [done|].
  apply Forall_cons in Hf as [Hc Hf]. constructor; [congruence|auto].
Qed.

Lemma dict_set_shape k s s' f :
  dict_get k f = Some s → length (s_values s') = length (s_values s) →
  same_shape f (dict_set k s' f).
Proof.
  intros Hget Hlen. induction f as [|[k0 s0] f IH]; [done|]. simpl in *.
  destruct (decide (k0 = k)) as [->|Hne].
  - injection Hget as ->. apply List.Forall2_cons; [done|apply same_shape_refl].
  - apply List.Forall2_cons; [done|by apply IH].
Qed.

Lemma run_steps_shape steps f :
  Forall (λ st : step, keeps_length st.2) steps →
  same_shape f (run_steps steps f).2.
Proof.
  revert f. induction steps as [|[k op] steps IH]; intros f Hsteps; simpl.
  { apply same_shape_refl. }
  apply Forall_cons in Hsteps as [Hop Hsteps].
  destruct (dict_get k f) as [s|] eqn:Hs; [|apply same_shape_refl].
  destruct (op s) as [e|s'] eqn:Hops; [apply same_shape_refl|].
  eapply same_shape_trans; [|by apply IH].
  eapply dict_set_shape; [done|]. by apply Hop.
Qed.

Lemma dict_get_None_names {A} k (l : list (string * A)) :
  dict_get k l = None ↔ k ∉ l.*1.
Proof.
  induction l as [|[k0 v] l IH]; simpl.
  - split; [intros _ ?%elem_of_nil|]; done.
  - rewrite not_elem_of_cons. destruct (decide (k0 = k)) as [->|Hne].
    + split; [done|]. by intros [? _].
    + rewrite IH. split; [intros ?; split; [by intros ->|done]|by intros [_ ?]].
Qed.
End Shapes.

Lemma traverse_length {A B} (f : A → result B) l ys :
  traverse f l = inr ys → length ys = length l.
Proof.
  revert ys. induction l as [|a l IH]; intros ys; simpl.
  - by intros [= <-].
  - destruct (f a); [done|]. destruct (traverse f l); [done|].
    intros [= <-]. simpl. f_equal. by apply IH.
Qed.

Lemma traverse_floats (xs : list Float.t) :
  traverse cell_to_float (Float <$> xs) = inr xs.
Proof. induction xs as [|x xs IH]; [done|]. rewrite fmap_cons. simpl. by rewrite IH. Qed.

Lemma keeps_length_astype ps :
  keeps_length (λ s, astype_float (replace_regex ps s)).
Proof.
  intros s s'. unfold astype_float, replace_regex. simpl.
  destruct (traverse _ _) as [|xs] eqn:Htr; [done|]. intros [= <-]. simpl.
  apply traverse_length in Htr. by rewrite !length_fmap in *.
Qed.

Lemma keeps_length_dates `{!DateParser} :
  keeps_length (λ s, inr (to_datetime_coerce s)).
Proof. intros s s' [= <-]. unfold to_datetime_coerce. simpl. by rewrite length_fmap. Qed.

Lemma keeps_length_str p : keeps_length (str_replace p).
Proof.
  intros s s'. unfold str_replace. destruct (s_dtype s); try done.
  intros [= <-]. simpl. by rewrite length_fmap.
Qed.

Lemma clean_steps_keep_length `{!DateParser} :
  Forall (λ st : step, keeps_length st.2) clean_steps.
Proof.
  unfold clean_steps.
  repeat (constructor; [first [apply keeps_length_astype | apply keeps_length_dates
                             | apply keeps_length_str]|]).
  constructor.
Qed.

(** An assignment that has been made once leaves the column as it is when
    it is made again. *)
Lemma astype_float_again ps s s' :
  astype_float s = inr s' → astype_float (replace_regex ps s') = inr s'.
Proof.
  unfold astype_float. destruct (traverse _ _) as [|xs]; [done|]. intros [= <-].
  unfold replace_regex. simpl. rewrite <- list_fmap_compose.
  replace (replace_cell ps ∘ Float) with Float by done.
  by rewrite traverse_floats.
Qed.

Lemma delete_chars_again p s :
  delete_chars p (delete_chars p s) = delete_chars p s.
Proof.
  induction s as [|c s IH]; [done|]. simpl.
  destruct (p c) eqn:Hp; [done|]. simpl. by rewrite Hp, IH.
Qed.

Lemma str_replace_again p s s' :
  str_replace p s = inr s' → str_replace p s' = inr s'.
Proof.
  unfold str_replace. destruct (s_dtype s); try done. intros [= <-]. simpl.
  do 2 f_equal. rewrite <- list_fmap_compose. apply list_fmap_ext.
  intros _ [] _; simpl; try done.
  unfold re_sub_empty. by rewrite delete_chars_again.
Qed.

Section Runs.
Implicit Types (f : frame) (steps : list step).

Lemma run_steps_succeeds steps f :
  NoDup steps.*1 →
  (∀ k op, (k, op) ∈ steps →
     ∃ s s', dict_get k f = Some s ∧ op s = inr s') →
  (run_steps steps f).1 = None.
Proof.
  revert f. induction steps as [|[k op] steps IH]; intros f Hnd Hok; [done|].
  simpl in Hnd. apply NoDup_cons in Hnd as [Hk Hnd]. simpl.
  destruct (Hok k op) as (s & s' & -> & ->); [left|].
  apply IH; [done|]. intros k' op' Hin.
  destruct (Hok k' op') as (t & t' & Ht & Hop); [by right|].
  exists t, t'. split; [|done]. rewrite dict_set_ne; [done|].
  intros ->. apply Hk. by apply (list_elem_of_fmap_2 fst) in Hin.
Qed.

Lemma run_steps_missing steps f k :
  k ∈ steps.*1 → dict_get k f = None → (run_steps steps f).1 ≠ None.
Proof.
  revert f. induction steps as [|[k0 op] steps IH]; intros f Hk Hget.
  { by apply elem_of_nil in Hk. }
  simpl. destruct (dict_get k0 f) as [s|] eqn:Hs; [|done].
  destruct (op s) as [e|s']; [done|].
  simpl in Hk. apply elem_of_cons in Hk as [->|Hk]; [congruence|].
  apply IH; [done|]. rewrite dict_set_ne; [done|]. congruence.
Qed.
End Runs.

Section CleanDataMore.
Context {E : Type} `{!Engine E} `{!DateParser}.
Implicit Types (st : state E) (df : ref) (f : frame).

(** X1. [clean_data] keeps the shape of the batch: after the call, whether
  it returns or raises, the object holds a frame with the same column
  names in the same order and as many values in each column, and every
  column other than the six cleaned ones is as it was. *)
Theorem clean_data_keeps_shape st df f :
  heap st !! df = Some f →
  ∃ f', heap (clean_data df st).2 !! df = Some f' ∧
        same_shape f f' ∧
        ∀ k, k ∉ ["Annual Salary"; "Bonus %"; "Hire Date"; "Exit Date";
                   "Full Name"; "Job Title"] →
             dict_get k f' = dict_get k f.
Proof.
  intros Hdf. rewrite (clean_data_runs df st f Hdf).
  exists (run_steps clean_steps f).2. split_and!.
  - simpl. apply list_lookup_insert_eq. by eapply lookup_lt_Some.
  - apply run_steps_shape, clean_steps_keep_length.
  - intros k Hk. apply run_steps_other. by rewrite clean_steps_keys.
Qed.

(** X2. Cleaning a cleaned batch: when [clean_data] has returned, a second
  call on the same object returns too, and leaves the salary, bonus, name
  and title columns as the first call left them. *)
Theorem clean_data_twice st df r st1 :
  clean_data df st = (inr r, st1) →
  ∃ st2 f1 f2,
    clean_data df st1 = (inr df, st2) ∧
    heap st1 !! df = Some f1 ∧ heap st2 !! df = Some f2 ∧
    ∀ k, k ∈ ["Annual Salary"; "Bonus %"; "Full Name"; "Job Title"] →
         dict_get k f2 = dict_get k f1.
Proof.
  intros Hrun. destruct (heap st !! df) as [f|] eqn:Hdf.
  2: { by rewrite (clean_data_dangling st df Hdf) in Hrun. }
  destruct (clean_data_returns _ _ _ _ _ Hdf Hrun) as (-> & Hsteps & -> & Hf1).
  set (f1 := (run_steps clean_steps f).2) in *.
  assert (Hcols : ∀ k op, (k, op) ∈ clean_steps →
            ∃ s s', dict_get k f = Some s ∧ op s = inr s'
                    ∧ dict_get k f1 = Some s').
  { intros k op Hin. by eapply run_steps_ok; [apply clean_steps_NoDup|..]. }
  assert (Hagain : (run_steps clean_steps f1).1 = None).
  { apply run_steps_succeeds; [apply clean_steps_NoDup|].
    intros k op Hin. destruct (Hcols k op Hin) as (s & s' & _ & Hop & Hs').
    unfold clean_steps in Hin.
    repeat (apply elem_of_cons in Hin as [[= -> ->]|Hin]);
      [..|by apply elem_of_nil in Hin]; exists s'; simpl in *;
      eauto using astype_float_again, str_replace_again. }
  exists (with_heap (with_heap st (<[df:=f1]> (heap st)))
            (<[df:=(run_steps clean_steps f1).2]>
               (heap (with_heap st (<[df:=f1]> (heap st)))))),
    f1, (run_steps clean_steps f1).2.
  split_and!.
  - rewrite (clean_data_runs df _ f1 Hf1). by rewrite Hagain.
  - done.
  - simpl. apply list_lookup_insert_eq. rewrite length_insert.
    by eapply lookup_lt_Some.
  - intros k Hk.
    assert (Hrun2 : run_steps clean_steps f1 = (None, (run_steps clean_steps f1).2)).
    { rewrite <- Hagain. by destruct (run_steps clean_steps f1). }
    assert (Hfix : ∀ op, (k, op) ∈ clean_steps →
              (∀ s s', op s = inr s' → op s' = inr s') →
              dict_get k (run_steps clean_steps f1).2 = dict_get k f1).
    { intros op Hin Hop.
      destruct (Hcols k op Hin) as (s & s' & _ & Hs & Hs').
      destruct (run_steps_ok _ _ _ _ _ clean_steps_NoDup Hrun2 Hin)
        as (t & t' & Ht & Hopt & Ht').
      rewrite Ht', Hs'. rewrite Hs' in Ht. injection Ht as <-.
      rewrite (Hop _ _ Hs) in Hopt. congruence. }
    unfold clean_steps in Hfix.
    repeat (apply elem_of_cons in Hk as [->|Hk]); [..|by apply elem_of_nil in Hk].
    + eapply Hfix; [repeat constructor|]. intros s s'. apply astype_float_again.
    + eapply Hfix; [repeat constructor|]. intros s s'. apply astype_float_again.
    + eapply Hfix; [repeat constructor|]. intros s s'. apply str_replace_again.
    + eapply Hfix; [repeat constructor|]. intros s s'. apply str_replace_again.
Qed.
End CleanDataMore.

Lemma traverse_fails {A B} (g : A → result B) l x e :
  x ∈ l → g x = inl e → ∃ e', traverse g l = inl e'.
Proof.
  induction l as [|y l IH]; intros Hin Hx.
  { by apply elem_of_nil in Hin. }
  simpl. destruct (g y) as [e0|z] eqn:Hy; [by eexists|].
  apply elem_of_cons in Hin as [->|Hin]; [congruence|].
  destruct (IH Hin Hx) as [e' ->]. by eexists.
Qed.

Section CleanFailures.
Context {E : Type} `{!Engine E} `{!DateParser}.
Implicit Types (st : state E) (df : ref) (f : frame).

(** X3. [clean_data] stops at the first assignment that fails, and
  keeps the ones made before it: without a salary column, or with a salary
  that is not a number once "$" and "," are deleted, it raises and leaves
  the object as it was; without a bonus column it raises [KeyError] on an
  object whose salaries are already converted. *)
Theorem clean_data_stops_at_failure st df f :
  heap st !! df = Some f →
  (dict_get "Annual Salary" f = None →
   clean_data df st = (inl (KeyError "Annual Salary"), st)) ∧
  (∀ s raw, dict_get "Annual Salary" f = Some s →
     Str raw ∈ s_values s →
     Float.of_string (remove_all ["$"; ","]%char raw) = None →
     ∃ e, clean_data df st = (inl e, st)) ∧
  (∀ s s', dict_get "Annual Salary" f = Some s →
     astype_float (replace_regex [Literal "$"; Literal ","] s) = inr s' →
     dict_get "Bonus %" f = None →
     clean_data df st =
       (inl (KeyError "Bonus %"),
        with_heap st (<[df := dict_set "Annual Salary" s' f]> (heap st)))).
Proof.
  intros Hdf. rewrite (clean_data_runs df st f Hdf).
  assert (Hsame : with_heap st (<[df := f]> (heap st)) = st).
  { rewrite list_insert_id by done. apply with_heap_id. }
  split_and!.
  - intros Hget. simpl. rewrite Hget. simpl. by rewrite Hsame.
  - intros s raw Hget Hin Hbad. simpl. rewrite Hget.
    destruct (traverse_fails cell_to_float
                (s_values (replace_regex [Literal "$"; Literal ","] s))
                (Str (remove_all ["$"; ","]%char raw))
                (ValueError (remove_all ["$"; ","]%char raw))) as [e He].
    + simpl. rewrite <- replace_salary.
      by apply (list_elem_of_fmap_2 (replace_cell _) _ (Str raw)).
    + simpl. by rewrite Hbad.
    + unfold astype_float. rewrite He. simpl. rewrite Hsame. by exists e.
  - intros s s' Hget Hop Hbonus. simpl. rewrite Hget, Hop.
    rewrite dict_set_ne by done. by rewrite Hbonus.
Qed.
End CleanFailures.

(** ** Shapes through [drop] and [drop_duplicates] *)

Lemma keep_rows_length {A B} drops (xs : list A) (ys : list B) :
  length xs = length drops → length ys = length drops →
  length (keep_rows drops xs) = length (keep_rows drops ys).
Proof.
  revert xs ys. induction drops as [|d drops IH]; intros [|x xs] [|y ys]; try done.
  simpl. intros [= Hx] [= Hy]. destruct d; simpl; auto.
Qed.

Lemma keep_rows_elem {A} drops (xs : list A) x :
  x ∈ keep_rows drops xs → x ∈ xs.
Proof.
  revert xs. induction drops as [|d drops IH]; intros [|y xs]; simpl;
    try by intros ?%elem_of_nil.
  destruct d.
  - intros ?. right. auto.
  - intros [->|?]%elem_of_cons; [left|right; auto].
Qed.

Lemma duplicated_length seen xs : length (duplicated seen xs) = length xs.
Proof. revert seen. induction xs as [|x xs IH]; intros seen; simpl; auto. Qed.

(** As many rows are kept as the column has distinct keys. *)
Lemma keep_first_length xs :
  length (keep_rows (duplicated [] xs) xs)
  = length (remove_dups (dup_key <$> xs)).
Proof.
  destruct (keep_first_spec [] xs) as (Hnd & _ & Hcover).
  rewrite <- (length_fmap dup_key (keep_rows _ _)).
  apply Permutation_length, NoDup_Permutation; [done|apply NoDup_remove_dups|].
  intros k. rewrite elem_of_remove_dups. split.
  - intros (y & -> & Hy)%list_elem_of_fmap.
    apply list_elem_of_fmap_2. by eapply keep_rows_elem.
  - intros (x & -> & Hx)%list_elem_of_fmap.
    by destruct (Hcover x Hx) as [?%elem_of_nil|?].
Qed.

Section FrameShapes.
Implicit Types (f : frame).

Lemma drop_column_shape k f f' n :
  drop_column k f = inr f' → has_rows n f →
  has_rows n f' ∧ f'.*1 = filter (λ c, c ≠ k) f.*1.
Proof.
  unfold drop_column. destruct (dict_get k f); [|done]. intros [= <-] Hn. split.
  - unfold has_rows in *. rewrite Forall_forall in Hn. apply Forall_forall.
    intros c [_ Hc]%list_elem_of_filter. by apply Hn.
  - clear Hn. induction f as [|[k0 s0] f IH]; [done|].
    rewrite fmap_cons. simpl.
    destruct (decide (k0 = k)) as [->|Hne].
    + rewrite !filter_cons_False by (simpl; auto). done.
    + rewrite !filter_cons_True by done. rewrite fmap_cons. by rewrite IH.
Qed.

Lemma drop_duplicates_shape k f f' n :
  drop_duplicates k f = inr f' → has_rows n f →
  has_rows (length (remove_dups (dup_key <$> column_values k f))) f' ∧
  f'.*1 = f.*1.
Proof.
  unfold drop_duplicates, column_values.
  destruct (dict_get k f) as [ids|] eqn:Hids; [|done]. intros [= <-] Hn. split.
  - assert (Hlen : length (s_values ids) = n).
    { apply dict_get_elem in Hids. unfold has_rows in Hn.
      rewrite Forall_forall in Hn. by apply (Hn (k, ids)). }
    rewrite <- keep_first_length. unfold has_rows in *.
    apply Forall_fmap. eapply Forall_impl; [exact Hn|].
    intros [k0 s] Hs. simpl in *.
    apply keep_rows_length; rewrite duplicated_length; congruence.
  - rewrite <- list_fmap_compose. by apply list_fmap_ext.
Qed.
End FrameShapes.

Section LoadMore.
Context {E : Type} `{!Engine E} `{!DateParser}.
Implicit Types (st : state E) (df : ref) (f : frame).

(** X4. The batch that [index_data] cleans, for a file whose columns all
  have [n] values: its columns are those of the file without
  [exclude_column], in the order of the file, and each has as many values
  as the file has distinct identifiers. *)
Theorem load_batch_shape st exclude_column df st' f0 n :
  files st !! "employee_data.csv" = Some f0 →
  has_rows n f0 →
  load_batch exclude_column st = (inr df, st') →
  ∃ f', heap st' !! df = Some f' ∧
        f'.*1 = filter (λ c, c ≠ exclude_column) f0.*1 ∧
        has_rows (length (remove_dups
                    (dup_key <$> column_values "Employee ID" f0))) f'.
Proof.
  intros Hcsv Hn (f0' & f1 & f2 & Hcsv' & Hdrop & Hdup & Hf')%load_batch_returns.
  assert (f0' = f0) as -> by congruence.
  destruct (drop_column_shape _ _ _ _ Hdrop Hn) as [Hn1 Hnames1].
  destruct (drop_duplicates_shape _ _ _ _ Hdup Hn1) as [Hn2 Hnames2].
  assert (Hids : column_values "Employee ID" f1 = column_values "Employee ID" f0).
  { unfold drop_column in Hdrop. destruct (dict_get exclude_column f0); [|done].
    injection Hdrop as <-. unfold column_values.
    destruct (decide ("Employee ID" = exclude_column)) as [<-|Hne].
    - unfold drop_duplicates in Hdup. by rewrite dict_get_filter_eq in Hdup.
    - by rewrite dict_get_filter_ne. }
  rewrite Hids in Hn2.
  pose proof (run_steps_shape clean_steps f2 clean_steps_keep_length) as Hshape.
  exists (run_steps clean_steps f2).2. split_and!; [done| |].
  - by rewrite (same_shape_names _ _ Hshape), Hnames2.
  - by eapply same_shape_has_rows.
Qed.

(** X5. Without the file, [index_data] raises [FileNotFoundError] and does
  nothing else; when the file has no column [exclude_column], [drop]
  raises the [KeyError] whose argument is the message
  [f"{[exclude_column]} not found in axis"], and only the frame read from
  the file has been created. *)
Theorem index_data_missing_input collection_name exclude_column st :
  (files st !! "employee_data.csv" = None →
   index_data collection_name exclude_column st
   = (inl (FileNotFoundError "employee_data.csv"), st)) ∧
  (∀ f0, files st !! "employee_data.csv" = Some f0 →
     dict_get exclude_column f0 = None →
     index_data collection_name exclude_column st
     = (inl (KeyError (not_found_in_axis exclude_column)),
        with_heap st (heap st ++ [f0]))).
Proof.
  split.
  - intros Hcsv. by rewrite index_data_run, load_batch_run, Hcsv.
  - intros f0 Hcsv Hcol. rewrite index_data_run, load_batch_run, Hcsv.
    unfold drop_column. by rewrite Hcol.
Qed.

(** X6. Excluding one of the columns that [index_data] reads by name (the
  identifier or one of the six cleaned columns) makes the call raise, with
  no call to the engine and nothing printed; excluding the identifier
  column of a file that has it raises, from [drop_duplicates], the
  [KeyError] whose argument is the Index of that one label,
  [KeyError(Index(['Employee ID']))]. *)
Theorem index_data_needs_column collection_name exclude_column st :
  exclude_column ∈ needed_columns →
  let r := index_data collection_name exclude_column st in
  (∃ e, r.1 = inl e) ∧
  calls r.2 = calls st ∧ es r.2 = es st ∧ stdout r.2 = stdout st ∧
  (∀ f0, files st !! "employee_data.csv" = Some f0 →
         exclude_column = "Employee ID" →
         is_Some (dict_get "Employee ID" f0) →
         r.1 = inl (KeyErrorIndex ["Employee ID"])).
Proof.
  intros Hneeded r.
  assert (Hfail : ∃ e, (load_batch exclude_column st).1 = inl e).
  { rewrite load_batch_run.
    destruct (files st !! "employee_data.csv") as [f0|]; [|by eexists].
    unfold drop_column.
    destruct (dict_get exclude_column f0); [|by eexists].
    unfold drop_duplicates.
    destruct (decide ("Employee ID" = exclude_column)) as [<-|Hne].
    { rewrite dict_get_filter_eq. by eexists. }
    rewrite dict_get_filter_ne by done.
    destruct (dict_get "Employee ID" f0) as [ids|]; [|by eexists].
    cbn [fst].
    match goal with |- context [run_steps clean_steps ?f] =>
      pose proof (run_steps_missing clean_steps f exclude_column) as Hmiss
    end.
    destruct (run_steps clean_steps _).1 as [e|]; [by eexists|].
    exfalso. apply Hmiss; [| |done].
    - rewrite clean_steps_keys. unfold needed_columns in Hneeded.
      apply elem_of_cons in Hneeded as [->|?]; done.
    - rewrite (dict_get_fmap (λ s, Series (s_dtype s) (keep_rows _ (s_values s)))).
      by rewrite dict_get_filter_eq. }
  pose proof (load_batch_world st exclude_column) as (_ & Hes & Hcalls & Hout).
  subst r. rewrite index_data_run.
  destruct (load_batch exclude_column st) as [[e|df] st1] eqn:Hload;
    simpl in *; [|by destruct Hfail].
  split_and!; [by eexists|done..|].
  intros f0 Hcsv -> [ids Hids]. rewrite load_batch_run, Hcsv in Hload.
  unfold drop_column, drop_duplicates in Hload.
  rewrite Hids, dict_get_filter_eq in Hload. by injection Hload as <- _.
Qed.

Lemma load_batch_heap exclude_column st :
  ∃ new, heap (load_batch exclude_column st).2 = heap st ++ new ∧
    (length new ≤ 3)%nat ∧
    ∀ f0, files st !! "employee_data.csv" = Some f0 →
      ∃ rest, new = f0 :: rest ∧
        ∀ f1, drop_column exclude_column f0 = inr f1 →
          ∃ rest', rest = f1 :: rest'.
Proof.
  rewrite load_batch_run.
  destruct (files st !! "employee_data.csv") as [f0|] eqn:Hcsv.
  2: { exists []. rewrite app_nil_r. split_and!; [done|simpl; lia|]. by intros. }
  destruct (drop_column exclude_column f0) as [e|f1] eqn:Hdrop.
  { exists [f0]. split_and!; [done|simpl; lia|]. intros g [= <-].
    exists []. split; [done|]. intros f1 Hf1. congruence. }
  destruct (drop_duplicates "Employee ID" f1) as [e|f2].
  { exists [f0; f1]. split_and!; [done|simpl; lia|]. intros g [= <-].
    exists [f1]. split; [done|]. intros g Hg. exists []. congruence. }
  eexists. split_and!; [done|simpl; lia|]. intros g [= <-].
  eexists. split; [done|]. intros g Hg. eexists. f_equal. congruence.
Qed.

Lemma index_data_heap collection_name exclude_column st :
  heap (index_data collection_name exclude_column st).2
  = heap (load_batch exclude_column st).2 ∧
  files (index_data collection_name exclude_column st).2 = files st.
Proof.
  rewrite index_data_run.
  pose proof (load_batch_world st exclude_column) as (Hfiles & _).
  destruct (load_batch exclude_column st) as [[e|df] st1]; [done|].
  simpl in *. destruct (heap st1 !! df) as [f|]; [|done].
  destruct (any_null f); [done|].
  destruct (index_rows collection_name (iterrows f) st1) as [r s'] eqn:Hrun.
  apply index_rows_spec in Hrun as (? & ? & _). simpl. split; congruence.
Qed.

(** X7. [index_data] never writes the files and never touches an object
  that existed before the call: it creates at most three frames, the first
  one read from the file, the second one without [exclude_column]; the
  third is the deduplicated one, which [clean_data] cleans in place. *)
Theorem index_data_fresh_frames collection_name exclude_column st :
  let st' := (index_data collection_name exclude_column st).2 in
  files st' = files st ∧
  ∃ new, heap st' = heap st ++ new ∧ (length new ≤ 3)%nat ∧
    ∀ f0, files st !! "employee_data.csv" = Some f0 →
      ∃ rest, new = f0 :: rest ∧
        ∀ f1, drop_column exclude_column f0 = inr f1 →
          ∃ rest', rest = f1 :: rest'.
Proof.
  intros st'. subst st'.
  destruct (index_data_heap collection_name exclude_column st) as [-> ->].
  split; [done|]. apply load_batch_heap.
Qed.
End LoadMore.

(** ** Rows of a frame whose columns have the same length *)

Section RowsMore.
Implicit Types (f : frame) (r : row).

Lemma row_at_get f n i k s :
  has_rows n f → (i < n)%nat → dict_get k f = Some s →
  ∃ v, s_values s !! i = Some v ∧ dict_get k (row_at f i) = Some v.
Proof.
  intros Hn Hi. unfold has_rows in Hn.
  induction Hn as [|[k0 s0] f Hlen _ IH]; [done|]. simpl in *.
  destruct (lookup_lt_is_Some_2 (s_values s0) i ltac:(lia)) as [v0 Hv0].
  unfold row_at. simpl. rewrite Hv0. simpl.
  destruct (decide (k0 = k)) as [->|Hne].
  - intros [= ->]. eauto.
  - apply IH.
Qed.

Lemma row_at_names f i k : k ∈ (row_at f i).*1 → k ∈ f.*1.
Proof.
  intros ([k' v] & -> & Hin)%list_elem_of_fmap.
  apply row_at_elem in Hin as (s & Hs & _).
  by apply (list_elem_of_fmap_2 fst) in Hs.
Qed.

Lemma subscript_to_dict r k :
  subscript (to_dict r) k =
    match dict_get k r with
    | Some v => inr (PVal v)
    | None => inl (KeyError k)
    end.
Proof.
  unfold to_dict. simpl. rewrite (dict_get_fmap PVal). by destruct (dict_get k r).
Qed.

Lemma nrows_has_rows f n k s : has_rows n f → dict_get k f = Some s → nrows f = n.
Proof.
  intros Hn Hs. destruct f as [|c f]; [done|]. simpl.
  by apply Forall_cons in Hn as [? _].
Qed.

Lemma iterrows_lookup f i r :
  iterrows f !! i = Some r → (i < nrows f)%nat ∧ r = row_at f i.
Proof.
  unfold iterrows. rewrite list_lookup_fmap.
  destruct (seq 0 (nrows f) !! i) as [j|] eqn:Hj; [|done].
  apply lookup_seq in Hj as [-> ?]. by intros [= <-].
Qed.

(** The identifiers of the rows are the identifier column. *)
Lemma iterrows_ids f n s :
  has_rows n f → dict_get "Employee ID" f = Some s →
  row_id <$> iterrows f = s_values s ∧
  Forall (λ r, is_Some (dict_get "Employee ID" r)) (iterrows f).
Proof.
  intros Hn Hs. pose proof (nrows_has_rows _ _ _ _ Hn Hs) as Hrows.
  assert (Hlen : length (s_values s) = n).
  { apply dict_get_elem in Hs. unfold has_rows in Hn.
    rewrite Forall_forall in Hn. by apply (Hn ("Employee ID", s)). }
  split.
  - apply list_eq_same_length with n; [done| |].
    { unfold iterrows. by rewrite !length_fmap, length_seq. }
    intros i x y Hi. rewrite list_lookup_fmap.
    destruct (iterrows f !! i) as [r|] eqn:Hr; [|done].
    apply iterrows_lookup in Hr as [_ ->].
    destruct (row_at_get _ _ _ _ _ Hn Hi Hs) as (v & Hv & Hget).
    simpl. unfold row_id. rewrite Hget. simpl. congruence.
  - apply Forall_forall. intros r (i & Hr)%list_elem_of_lookup_1.
    apply iterrows_lookup in Hr as [Hi ->]. rewrite Hrows in Hi.
    destruct (row_at_get _ _ _ _ _ Hn Hi Hs) as (v & _ & ->). by eexists.
Qed.
End RowsMore.

(** ** The loop *)

Section Loop.
Context {E : Type} `{!Engine E} `{!DateParser}.
Implicit Types (st : state E) (df : ref) (f : frame) (rows : list row).

Lemma index_rows_steps collection_name rows st res st' :
  Forall (λ r, is_Some (dict_get "Employee ID" r)) rows →
  index_rows collection_name rows st = (res, st') →
  ∃ n, (n ≤ length rows)%nat ∧
    calls st' = calls st ++ omap (upsert_of collection_name) (take n rows) ∧
    (res = inr () →
       n = length rows ∧ stdout st' = stdout st ++ (line_of <$> rows)) ∧
    (∀ e, res = inl e →
       (0 < n)%nat ∧
       stdout st' = stdout st ++ (line_of <$> take (n - 1) rows)).
Proof.
  revert st. induction rows as [|r rows IH]; intros st Hids Hrun.
  { injection Hrun as <- <-. exists 0%nat. rewrite !app_nil_r.
    split_and!; [done..|]. by intros. }
  apply Forall_cons in Hids as [[id Hid] Hids].
  cbn [index_rows] in Hrun. unfold mbind, M_bind, mret, M_ret in Hrun.
  rewrite Hid in Hrun.
  assert (Hrow : row_id r = id) by (unfold row_id; by rewrite Hid).
  destruct (isnull id) eqn:Hnull.
  - unfold print at 1 in Hrun. cbv beta iota in Hrun.
    apply IH in Hrun as (n & Hn & Hcalls & Hok & Hfail); [|done].
    cbn [heap files calls stdout] in *.
    assert (Hline : line_of r = skip_line).
    { unfold line_of. by rewrite Hrow, Hnull. }
    exists (S n). split_and!.
    + simpl. lia.
    + simpl. unfold upsert_of at 1. by rewrite Hrow, Hnull.
    + intros Hres. destruct (Hok Hres) as [-> Hout]. split; [done|].
      rewrite Hout, fmap_cons, Hline. by rewrite <- (assoc_L (++)).
    + intros e Hres. destruct (Hfail e Hres) as [Hpos Hout]. split; [lia|].
      rewrite Hout. replace (S n - 1)%nat with (S (n - 1)) by lia.
      simpl. rewrite Hline. by rewrite <- (assoc_L (++)).
  - unfold client at 1 in Hrun. cbv beta iota in Hrun.
    assert (Hup : upsert_of collection_name r
                  = Some (CallIndex collection_name id (to_dict r))).
    { unfold upsert_of. by rewrite Hrow, Hnull. }
    assert (Hline : line_of r
                    = [Text "Indexed document with Employee ID: "; Subst id]).
    { unfold line_of. by rewrite Hrow, Hnull. }
    destruct (es_index collection_name id (to_dict r) (es st)) as [[e|[]] e'].
    + injection Hrun as <- <-. cbn [heap files calls stdout].
      exists 1%nat. split_and!.
      * simpl. lia.
      * simpl. rewrite Hup. by destruct rows.
      * done.
      * intros ? _. split; [lia|]. simpl. by rewrite app_nil_r.
    + unfold print at 1 in Hrun. cbv beta iota in Hrun.
      apply IH in Hrun as (n & Hn & Hcalls & Hok & Hfail); [|done].
      cbn [heap files calls stdout] in *.
      exists (S n). split_and!.
      * simpl. lia.
      * simpl. rewrite Hup, Hcalls. by rewrite <- (assoc_L (++)).
      * intros Hres. destruct (Hok Hres) as [-> Hout]. split; [done|].
        rewrite Hout, fmap_cons, Hline. by rewrite <- (assoc_L (++)).
      * intros e Hres. destruct (Hfail e Hres) as [Hpos Hout]. split; [lia|].
        rewrite Hout. replace (S n - 1)%nat with (S (n - 1)) by lia.
        simpl. rewrite Hline. by rewrite <- (assoc_L (++)).
Qed.

Lemma upserts_no_null collection_name rows :
  Forall no_null_id rows →
  Forall (λ r, is_Some (dict_get "Employee ID" r)) rows →
  omap (upsert_of collection_name) rows
  = (λ r, CallIndex collection_name (row_id r) (to_dict r)) <$> rows ∧
  line_of <$> rows
  = (λ r, [Text "Indexed document with Employee ID: "; Subst (row_id r)])
      <$> rows.
Proof.
  induction rows as [|r rows IH]; [done|].
  intros [Hr Hrows]%Forall_cons [[id Hid] Hids]%Forall_cons.
  destruct (IH Hrows Hids) as [IH1 IH2].
  assert (Hnull : isnull (row_id r) = false).
  { unfold row_id. rewrite Hid. by apply Hr. }
  csimpl. unfold upsert_of at 1, line_of at 1.
  rewrite Hnull. by rewrite IH1, IH2.
Qed.
End Loop.

Section Batch.
Context {E : Type} `{!Engine E} `{!DateParser}.
Implicit Types (st : state E) (df : ref) (f : frame) (rows : list row).

(** The cleaned batch of a file whose columns have the same length. *)
Lemma cleaned_batch st exclude_column df st1 f0 n :
  files st !! "employee_data.csv" = Some f0 →
  has_rows n f0 →
  load_batch exclude_column st = (inr df, st1) →
  ∃ f2 f ids m,
    drop_duplicates "Employee ID"
      (filter (λ c, c.1 ≠ exclude_column) f0) = inr f2 ∧
    run_steps clean_steps f2 = (None, f) ∧
    heap st1 !! df = Some f ∧
    has_rows m f ∧
    dict_get "Employee ID" f = Some ids ∧
    NoDup (dup_key <$> s_values ids) ∧
    dict_get exclude_column f = None.
Proof.
  intros Hcsv Hn Hload.
  destruct (load_batch_returns _ _ _ _ Hload)
    as (f0' & f1 & f2 & Hcsv' & Hdrop & Hdup & Hf').
  assert (f0' = f0) as -> by congruence.
  destruct (drop_column_shape _ _ _ _ Hdrop Hn) as [Hn1 Hnames1].
  destruct (drop_duplicates_shape _ _ _ _ Hdup Hn1) as [Hn2 Hnames2].
  assert (Hf1 : f1 = filter (λ c, c.1 ≠ exclude_column) f0).
  { unfold drop_column in Hdrop. destruct (dict_get exclude_column f0); congruence. }
  pose proof (run_steps_shape clean_steps f2 clean_steps_keep_length) as Hshape.
  set (f := (run_steps clean_steps f2).2) in *.
  assert (Hok : run_steps clean_steps f2 = (None, f)).
  { rewrite load_batch_run, Hcsv, Hdrop, Hdup in Hload.
    subst f. destruct (run_steps clean_steps f2) as [[e|] ?]; [done|done]. }
  assert (Hid2 : ∃ ids1, dict_get "Employee ID" f2
      = Some (Series (s_dtype ids1)
                (keep_rows (duplicated [] (s_values ids1)) (s_values ids1)))).
  { unfold drop_duplicates in Hdup.
    destruct (dict_get "Employee ID" f1) as [ids1|] eqn:Hids1; [|done].
    injection Hdup as <-. exists ids1.
    rewrite (dict_get_fmap (λ s, Series (s_dtype s) (keep_rows _ (s_values s)))).
    by rewrite Hids1. }
  destruct Hid2 as [ids1 Hid2].
  eexists f2, f, _, _. split_and!; [by rewrite <- Hf1|done|done| | | |].
  - by eapply same_shape_has_rows.
  - subst f. rewrite run_steps_other by (rewrite clean_steps_keys; compute_done).
    exact Hid2.
  - simpl. by destruct (keep_first_spec [] (s_values ids1)) as (? & _).
  - apply dict_get_None_names.
    rewrite (same_shape_names _ _ Hshape), Hnames2, Hnames1.
    by intros [? _]%list_elem_of_filter.
Qed.

(** What [index_data] sends when the cleaned batch has no null: its rows,
    in order, up to the row on which the engine raised. *)
Lemma index_data_batch collection_name exclude_column st f0 n df st1 f :
  files st !! "employee_data.csv" = Some f0 →
  has_rows n f0 →
  load_batch exclude_column st = (inr df, st1) →
  heap st1 !! df = Some f →
  any_null f = false →
  let r := index_data collection_name exclude_column st in
  ∃ k, (k ≤ length (iterrows f))%nat ∧
    calls r.2 = calls st ++
      ((λ r, CallIndex collection_name (row_id r) (to_dict r))
         <$> take k (iterrows f)) ∧
    (r.1 = inr () →
       k = length (iterrows f) ∧
       stdout r.2 = stdout st ++
         ((λ r, [Text "Indexed document with Employee ID: "; Subst (row_id r)])
            <$> iterrows f)) ∧
    (∀ e, r.1 = inl e →
       (0 < k)%nat ∧
       stdout r.2 = stdout st ++
         ((λ r, [Text "Indexed document with Employee ID: "; Subst (row_id r)])
            <$> take (k - 1) (iterrows f))).
Proof.
  intros Hcsv Hn Hload Hf Hnull r. subst r.
  rewrite index_data_run, Hload, Hf, Hnull.
  pose proof (load_batch_world st exclude_column) as (_ & _ & Hcalls & Hout).
  rewrite Hload in Hcalls, Hout. simpl in Hcalls, Hout.
  destruct (cleaned_batch _ _ _ _ _ _ Hcsv Hn Hload)
    as (f2 & f' & ids & m & _ & _ & Hf' & Hm & Hids & _ & _).
  assert (f' = f) as -> by congruence.
  destruct (iterrows_ids _ _ _ Hm Hids) as [_ Hsome].
  pose proof (iterrows_no_null f Hnull) as Hnonull.
  destruct (index_rows collection_name (iterrows f) st1) as [res st'] eqn:Hrun.
  apply index_rows_steps in Hrun as (k & Hk & Hcs & Hok & Hfail); [|done].
  destruct (upserts_no_null collection_name (take k (iterrows f)))
    as [Hup _]; [by apply Forall_take..|].
  destruct (upserts_no_null collection_name (iterrows f)) as [_ Hlines];
    [done..|].
  exists k. simpl. split_and!; [done| | |].
  - by rewrite Hcs, Hup, Hcalls.
  - intros Hres. destruct (Hok Hres) as [-> ->]. by rewrite Hlines, Hout.
  - intros e Hres. destruct (Hfail e Hres) as [? ->].
    by rewrite fmap_take, Hlines, <- fmap_take, Hout.
Qed.

(** What [index_data] sends in all: nothing, or rows of a cleaned batch
    that has no null. *)
Lemma index_data_calls collection_name exclude_column st f0 n :
  files st !! "employee_data.csv" = Some f0 →
  has_rows n f0 →
  ∃ cs, calls (index_data collection_name exclude_column st).2 = calls st ++ cs ∧
    (cs = [] ∨
     ∃ df st1 f k,
       load_batch exclude_column st = (inr df, st1) ∧
       heap st1 !! df = Some f ∧ any_null f = false ∧
       cs = (λ r, CallIndex collection_name (row_id r) (to_dict r))
              <$> take k (iterrows f)).
Proof.
  intros Hcsv Hn.
  pose proof (load_batch_world st exclude_column) as (_ & _ & Hcalls & _).
  destruct (load_batch exclude_column st) as [[e|df] st1] eqn:Hload.
  { exists []. rewrite index_data_run, Hload, app_nil_r. by split; [|left]. }
  destruct (cleaned_batch _ _ _ _ _ _ Hcsv Hn Hload)
    as (_ & f & _ & _ & _ & _ & Hf & _).
  destruct (any_null f) eqn:Hnull.
  { exists []. rewrite index_data_run, Hload, Hf, Hnull, app_nil_r.
    by split; [|left]. }
  destruct (index_data_batch collection_name _ _ _ _ _ _ _ Hcsv Hn Hload Hf Hnull)
    as (k & _ & Hcs & _).
  eexists. split; [exact Hcs|]. right. by exists df, st1, f, k.
Qed.
End Batch.

Lemma omap_call_id collection_name (rows : list row) :
  omap call_id ((λ r, CallIndex collection_name (row_id r) (to_dict r)) <$> rows)
  = row_id <$> rows.
Proof. induction rows as [|r rows IH]; [done|]. csimpl. by rewrite IH. Qed.

Section IndexDataMore.
Context {E : Type} `{!Engine E} `{!DateParser}.
Implicit Types (st : state E) (df : ref) (f : frame) (rows : list row).

(** X8. The loop of [index_data], on rows that all have the identifier
  field: it goes through the rows in order, with one upsert for each row
  whose identifier is not null and none for a row whose identifier is
  null, until the first upsert that raises; if it returns, every row has
  its line in the output, and if it raises, the rows before the failing
  one have theirs. *)
Theorem index_rows_trace collection_name rows st res st' :
  Forall (λ r, is_Some (dict_get "Employee ID" r)) rows →
  index_rows collection_name rows st = (res, st') →
  ∃ n, (n ≤ length rows)%nat ∧
    calls st' = calls st ++ omap (upsert_of collection_name) (take n rows) ∧
    (res = inr () →
       n = length rows ∧ stdout st' = stdout st ++ (line_of <$> rows)) ∧
    (∀ e, res = inl e →
       (0 < n)%nat ∧
       stdout st' = stdout st ++ (line_of <$> take (n - 1) rows)).
Proof. apply index_rows_steps. Qed.

(** X9. On a file whose cleaned batch has no null, [index_data] sends the
  rows of the batch in order, each under its identifier and with the whole
  row as document, and stops at the first upsert that raises; when it
  returns, every row has been sent and the output has one "Indexed
  document with Employee ID: <id>" line per row, in order. *)
Theorem index_data_upserts collection_name exclude_column st f0 n df st1 f :
  files st !! "employee_data.csv" = Some f0 →
  has_rows n f0 →
  load_batch exclude_column st = (inr df, st1) →
  heap st1 !! df = Some f →
  any_null f = false →
  let r := index_data collection_name exclude_column st in
  ∃ k, (k ≤ length (iterrows f))%nat ∧
    calls r.2 = calls st ++
      ((λ r, CallIndex collection_name (row_id r) (to_dict r))
         <$> take k (iterrows f)) ∧
    (r.1 = inr () →
       k = length (iterrows f) ∧
       stdout r.2 = stdout st ++
         ((λ r, [Text "Indexed document with Employee ID: "; Subst (row_id r)])
            <$> iterrows f)) ∧
    (∀ e, r.1 = inl e →
       (0 < k)%nat ∧
       stdout r.2 = stdout st ++
         ((λ r, [Text "Indexed document with Employee ID: "; Subst (row_id r)])
            <$> take (k - 1) (iterrows f))).
Proof. apply index_data_batch. Qed.

(** X10. Whatever values the file holds, its columns having the same number
  of values, the upserts of one call of [index_data] carry pairwise
  distinct identifiers: one call never writes a document twice. *)
Theorem index_data_distinct_ids collection_name exclude_column st f0 n :
  files st !! "employee_data.csv" = Some f0 →
  has_rows n f0 →
  ∃ cs, calls (index_data collection_name exclude_column st).2 = calls st ++ cs ∧
        NoDup (dup_key <$> omap call_id cs).
Proof.
  intros Hcsv Hn.
  destruct (index_data_calls collection_name exclude_column st f0 n Hcsv Hn)
    as (cs & Hcs & [->|(df & st1 & f & k & Hload & Hf & Hnull & ->)]).
  { exists []. split; [done|constructor]. }
  eexists. split; [exact Hcs|].
  destruct (cleaned_batch _ _ _ _ _ _ Hcsv Hn Hload)
    as (_ & f' & ids & m & _ & _ & Hf' & Hm & Hids & Hnd & _).
  assert (f' = f) as -> by congruence.
  destruct (iterrows_ids _ _ _ Hm Hids) as [Hrows _].
  rewrite omap_call_id, fmap_take, Hrows, fmap_take.
  eapply sublist_NoDup; [exact Hnd|apply sublist_take].
Qed.

(** X11. On a file whose columns have the same number of values, every
  call that [index_data] makes to the engine is an upsert into
  [collection_name] under a non-null identifier, which is the "Employee
  ID" field of the document sent; the document has no field
  [exclude_column]. *)
Theorem index_data_documents collection_name exclude_column st f0 n :
  files st !! "employee_data.csv" = Some f0 →
  has_rows n f0 →
  ∃ cs, calls (index_data collection_name exclude_column st).2 = calls st ++ cs ∧
    Forall (λ c, ∃ id doc,
              c = CallIndex collection_name id doc ∧
              isnull id = false ∧
              subscript doc "Employee ID" = inr (PVal id) ∧
              subscript doc exclude_column = inl (KeyError exclude_column))
           cs.
Proof.
  intros Hcsv Hn.
  destruct (index_data_calls collection_name exclude_column st f0 n Hcsv Hn)
    as (cs & Hcs & [->|(df & st1 & f & k & Hload & Hf & Hnull & ->)]).
  { exists []. split; [done|constructor]. }
  eexists. split; [exact Hcs|].
  destruct (cleaned_batch _ _ _ _ _ _ Hcsv Hn Hload)
    as (_ & f' & ids & m & _ & _ & Hf' & Hm & Hids & _ & Hexcl).
  assert (f' = f) as -> by congruence.
  destruct (iterrows_ids _ _ _ Hm Hids) as [_ Hsome].
  pose proof (iterrows_no_null f Hnull) as Hnonull.
  apply Forall_fmap, Forall_forall. intros r Hr.
  assert (Hin : r ∈ iterrows f).
  { by apply (sublist_subseteq _ _ (sublist_take (iterrows f) k)). }
  rewrite Forall_forall in Hsome, Hnonull.
  destruct (Hsome r Hin) as [id Hid].
  exists (row_id r), (to_dict r). rewrite !subscript_to_dict.
  unfold row_id. rewrite Hid. simpl. split_and!; [done|by apply (Hnonull r Hin)|done|].
  apply list_elem_of_fmap in Hin as (i & -> & _).
  assert (dict_get exclude_column (row_at f i) = None) as ->; [|done].
  apply dict_get_None_names. intros Hk%row_at_names.
  by apply dict_get_None_names in Hexcl.
Qed.

(** X12. On a file whose columns have the same number of values, in every
  document that [index_data] sends, the salary and the bonus are floats
  other than NaN, the hire and exit dates are timestamps, and the name and
  the title are strings of word characters and whitespace. *)
Theorem index_data_document_kinds collection_name exclude_column st f0 n :
  files st !! "employee_data.csv" = Some f0 →
  has_rows n f0 →
  ∃ cs, calls (index_data collection_name exclude_column st).2 = calls st ++ cs ∧
    Forall (λ c, ∃ id doc,
              c = CallIndex collection_name id doc ∧
              (∀ k, k ∈ ["Annual Salary"; "Bonus %"] →
                 ∃ v, subscript doc k = inr v ∧ is_float v) ∧
              (∀ k, k ∈ ["Hire Date"; "Exit Date"] →
                 ∃ v, subscript doc k = inr v ∧ is_timestamp v) ∧
              (∀ k, k ∈ ["Full Name"; "Job Title"] →
                 ∃ v, subscript doc k = inr v ∧ is_clean_text v))
           cs.
Proof.
  intros Hcsv Hn.
  destruct (index_data_calls collection_name exclude_column st f0 n Hcsv Hn)
    as (cs & Hcs & [->|(df & st1 & f & k & Hload & Hf & Hnull & ->)]).
  { exists []. split; [done|constructor]. }
  eexists. split; [exact Hcs|].
  destruct (cleaned_batch _ _ _ _ _ _ Hcsv Hn Hload)
    as (f2 & f' & ids & m & _ & Hsteps & Hf' & Hm & Hids & _ & _).
  assert (f' = f) as -> by congruence.
  pose proof (nrows_has_rows _ _ _ _ Hm Hids) as Hrows.
  apply Forall_fmap, Forall_forall. intros r Hr.
  assert (Hin : r ∈ iterrows f).
  { by apply (sublist_subseteq _ _ (sublist_take (iterrows f) k)). }
  apply list_elem_of_lookup_1 in Hin as [i Hi].
  apply iterrows_lookup in Hi as [Hi ->]. rewrite Hrows in Hi.
  assert (Hcell : ∀ k op, (k, op) ∈ clean_steps →
    ∃ s s' v, op s = inr s' ∧ s_values s' !! i = Some v ∧ isnull v = false ∧
              subscript (to_dict (row_at f i)) k = inr (PVal v)).
  { intros k0 op Hop.
    destruct (run_steps_ok _ _ _ _ _ clean_steps_NoDup Hsteps Hop)
      as (s & s' & _ & Hops & Hs').
    destruct (row_at_get _ _ _ _ _ Hm Hi Hs') as (v & Hv & Hget).
    exists s, s', v. split_and!; [done..| |].
    - eapply any_null_false; [done|by apply dict_get_elem|].
      by eapply list_elem_of_lookup_2.
    - by rewrite subscript_to_dict, Hget. }
  exists (row_id (row_at f i)), (to_dict (row_at f i)). split_and!; [done| | |].
  - intros k0 Hk0.
    assert (∃ ps, (k0, λ s, astype_float (replace_regex ps s)) ∈ clean_steps)
      as [ps Hop].
    { unfold clean_steps.
      apply elem_of_cons in Hk0 as [->|Hk0]; [|apply list_elem_of_singleton in Hk0 as ->];
        eexists; repeat constructor. }
    destruct (Hcell _ _ Hop) as (s & s' & v & Hops & Hv & Hnn & Hsub).
    exists (PVal v). split; [done|].
    destruct (astype_float_floats _ _ v Hops) as [x ->].
    { by eapply list_elem_of_lookup_2. }
    by exists x.
  - intros k0 Hk0.
    assert (Hop : (k0, λ s, inr (to_datetime_coerce s)) ∈ clean_steps).
    { unfold clean_steps.
      apply elem_of_cons in Hk0 as [->|Hk0]; [|apply list_elem_of_singleton in Hk0 as ->];
        repeat constructor. }
    destruct (Hcell _ _ Hop) as (s & s' & v & [= <-] & Hv & Hnn & Hsub).
    exists (PVal v). split; [done|].
    unfold to_datetime_coerce in Hv. simpl in Hv.
    rewrite list_lookup_fmap in Hv.
    destruct (s_values s !! i) as [c|]; [|done]. simpl in Hv.
    destruct (parse_datetime (s_values s) c) as [ns|]; injection Hv as <-;
      [by exists ns|done].
  - intros k0 Hk0.
    assert (Hop : (k0, str_replace NotWordNotSpace) ∈ clean_steps).
    { unfold clean_steps.
      apply elem_of_cons in Hk0 as [->|Hk0]; [|apply list_elem_of_singleton in Hk0 as ->];
        repeat constructor. }
    destruct (Hcell _ _ Hop) as (s & s' & v & Hops & Hv & Hnn & Hsub).
    exists (PVal v). split; [done|].
    unfold str_replace in Hops. destruct (s_dtype s); try done.
    injection Hops as <-. simpl in Hv. rewrite list_lookup_fmap in Hv.
    destruct (s_values s !! i) as [c|]; [|done]. injection Hv as <-.
    destruct c; try done. eexists. split; [done|].
    apply not_word_not_space_deleted.
Qed.

(** X13. One hire or exit date that [to_datetime] cannot parse, in a row
  that survives deduplication, makes [index_data] reject the whole batch:
  it prints the null-values line, sends nothing to the engine and
  returns. *)
Theorem unparsable_date_rejects_batch collection_name exclude_column st
    f0 f1 f2 df st1 k c :
  files st !! "employee_data.csv" = Some f0 →
  drop_column exclude_column f0 = inr f1 →
  drop_duplicates "Employee ID" f1 = inr f2 →
  load_batch exclude_column st = (inr df, st1) →
  k ∈ ["Hire Date"; "Exit Date"] →
  c ∈ column_values k f2 →
  parse_datetime (column_values k f2) c = None →
  index_data collection_name exclude_column st =
    (inr (), State (heap st1) (files st) (es st) (calls st)
                   (stdout st ++ [null_batch_line])).
Proof.
  intros Hcsv Hdrop Hdup Hload Hk Hc Hparse.
  destruct (load_batch_returns _ _ _ _ Hload)
    as (f0' & f1' & f2' & Hcsv' & Hdrop' & Hdup' & Hf).
  assert (f0' = f0) as -> by congruence.
  assert (f1' = f1) as -> by congruence.
  assert (f2' = f2) as -> by congruence.
  assert (Hsteps : run_steps clean_steps f2 = (None, (run_steps clean_steps f2).2)).
  { rewrite load_batch_run, Hcsv, Hdrop, Hdup in Hload.
    destruct (run_steps clean_steps f2) as [[e|] ?]; [done|done]. }
  assert (Hop : (k, λ s, inr (to_datetime_coerce s)) ∈ clean_steps).
  { unfold clean_steps.
    apply elem_of_cons in Hk as [->|Hk]; [|apply list_elem_of_singleton in Hk as ->];
      repeat constructor. }
  destruct (run_steps_ok _ _ _ _ _ clean_steps_NoDup Hsteps Hop)
    as (s & s' & Hs & [= <-] & Hs').
  rewrite (column_values_get _ _ _ Hs) in Hc, Hparse.
  apply list_elem_of_lookup_1 in Hc as [i Hi].
  eapply null_batch_rejected; [done..|].
  eapply any_null_true with (c := NaT); [by apply dict_get_elem| |done].
  apply (list_elem_of_lookup_2 _ i).
  by rewrite (to_datetime_coerce_lookup _ _ _ Hi), Hparse.
Qed.
End IndexDataMore.

(** ** Calls to the engine *)

Section GatewayMore.
Context {E : Type} `{!Engine E} `{!DateParser}.
Implicit Types (st : state E).

(** X14. [create_collection] against an engine that reports the index once
  it is created: of two calls in a row, the first checks, creates the
  index with the mappings and prints the "created" line; the second only
  checks. *)
Theorem create_collection_twice collection_name st e1 e2 e3 :
  es_indices_exists collection_name (es st) = (inr false, e1) →
  es_indices_create collection_name mappings e1 = (inr (), e2) →
  es_indices_exists collection_name e2 = (inr true, e3) →
  (create_collection collection_name;; create_collection collection_name) st =
    (inr (), State (heap st) (files st) e3
       (calls st ++ [CallExists collection_name;
                     CallCreate collection_name mappings;
                     CallExists collection_name])
       (stdout st ++ [[Text "Collection '"; Subst (Str collection_name);
                       Text "' created."]])).
Proof.
  intros Hex Hcr Hex'.
  unfold create_collection, client, print, mbind, mret, M_bind, M_ret.
  rewrite Hex. simpl. rewrite Hcr. simpl. rewrite Hex'. simpl.
  by rewrite <- !(assoc_L (++)).
Qed.
End GatewayMore.

Section Queries.
Context {E : Type} `{!Engine E}.
Implicit Types (st : state E).

(** X15. Whatever the engine answers, and whether they return or raise,
  [search_by_column], [get_emp_count] and [get_dep_facet] each make exactly
  one call to the engine (a search with the match query, a count, a search
  with the aggregation query) and leave the objects, the files and the
  output as they were. *)
Theorem queries_read_only collection_name column_name column_value st :
  let one_call (st' : state E) (c : call) (e' : E) :=
    heap st' = heap st ∧ files st' = files st ∧ stdout st' = stdout st ∧
    calls st' = calls st ++ [c] ∧ es st' = e' in
  one_call (search_by_column collection_name column_name column_value st).2
    (CallSearch collection_name (match_query_body column_name column_value))
    (es_search collection_name (match_query_body column_name column_value)
       (es st)).2 ∧
  one_call (get_emp_count collection_name st).2
    (CallCount collection_name) (es_count collection_name (es st)).2 ∧
  one_call (get_dep_facet collection_name st).2
    (CallSearch collection_name dep_query_body)
    (es_search collection_name dep_query_body (es st)).2.
Proof.
  intros one_call. subst one_call. cbv beta.
  split; [|split].
  - unfold search_by_column, client, lift, mbind, M_bind.
    fold (match_query_body column_name column_value).
    destruct (es_search collection_name _ (es st)) as [[e|r] e'];
      simpl; [by split_and!|].
    destruct (subscript r "hits") as [?|h]; simpl; [by split_and!|].
    by destruct (subscript h "hits"); split_and!.
  - unfold get_emp_count, client, lift, mbind, M_bind.
    destruct (es_count collection_name (es st)) as [[e|r] e'];
      simpl; [by split_and!|].
    by destruct (subscript r "count"); split_and!.
  - unfold get_dep_facet, client, lift, mbind, M_bind. fold dep_query_body.
    destruct (es_search collection_name dep_query_body (es st)) as [[e|r] e'];
      simpl; [by split_and!|].
    destruct (subscript r "aggregations") as [?|a]; simpl; [by split_and!|].
    destruct (subscript a "department_count") as [?|d]; simpl;
      [by split_and!|].
    by destruct (subscript d "buckets"); split_and!.
Qed.

(** X16. [get_dep_facet] sends the terms aggregation on "Department" (ten
  buckets, no hits) and returns
  [response['aggregations']['department_count']['buckets']]; a response
  without the key "aggregations" raises [KeyError]. *)
Theorem get_dep_facet_buckets collection_name st response e' :
  es_search collection_name dep_query_body (es st) = (inr (PDict response), e') →
  let st' := State (heap st) (files st) e'
               (calls st ++ [CallSearch collection_name dep_query_body])
               (stdout st) in
  (∀ aggregations department_count buckets,
     dict_get "aggregations" response = Some (PDict aggregations) →
     dict_get "department_count" aggregations
       = Some (PDict department_count) →
     dict_get "buckets" department_count = Some buckets →
     get_dep_facet collection_name st = (inr buckets, st')) ∧
  (dict_get "aggregations" response = None →
   get_dep_facet collection_name st = (inl (KeyError "aggregations"), st')).
Proof.
  intros Hsearch st'.
  unfold get_dep_facet, client, lift, mbind, M_bind. fold dep_query_body.
  rewrite Hsearch. simpl. split.
  - intros aggregations department_count buckets Hagg Hdep Hbuckets.
    rewrite Hagg. simpl. rewrite Hdep. simpl. by rewrite Hbuckets.
  - by intros ->.
Qed.

(** X17. [get_emp_count] returns [response['count']] of the engine's count
  of the collection. *)
Theorem get_emp_count_count collection_name st response e' n :
  es_count collection_name (es st) = (inr (PDict response), e') →
  dict_get "count" response = Some n →
  get_emp_count collection_name st =
    (inr n, State (heap st) (files st) e'
              (calls st ++ [CallCount collection_name]) (stdout st)).
Proof.
  intros Hcount Hn. unfold get_emp_count, client, lift, mbind, M_bind.
  rewrite Hcount. simpl. by rewrite Hn.
Qed.

(** X18. None of the three queries catches an exception of the engine: it
  reaches the caller, after the one call. *)
Theorem query_errors_propagate collection_name column_name column_value
    st x e' :
  let failed (c : call) : state E :=
    State (heap st) (files st) e' (calls st ++ [c]) (stdout st) in
  (es_search collection_name (match_query_body column_name column_value) (es st)
     = (inl x, e') →
   search_by_column collection_name column_name column_value st
     = (inl x, failed (CallSearch collection_name
                         (match_query_body column_name column_value)))) ∧
  (es_count collection_name (es st) = (inl x, e') →
   get_emp_count collection_name st
     = (inl x, failed (CallCount collection_name))) ∧
  (es_search collection_name dep_query_body (es st) = (inl x, e') →
   get_dep_facet collection_name st
     = (inl x, failed (CallSearch collection_name dep_query_body))).
Proof.
  intros failed. split_and!.
  - intros Hsearch. unfold search_by_column, client, lift, mbind, M_bind.
    fold (match_query_body column_name column_value). by rewrite Hsearch.
  - intros Hcount. unfold get_emp_count, client, lift, mbind, M_bind.
    by rewrite Hcount.
  - intros Hsearch. unfold get_dep_facet, client, lift, mbind, M_bind.
    fold dep_query_body. by rewrite Hsearch.
Qed.
End Queries.

(** ** Runs on the sample files *)

#[local] Existing Instance IsoDate.parser.
#[local] Existing Instance MemEngine.engine.

Lemma clean_data_salary_bonus_witness :
  let st := Sample.holding Sample.employees in
  cell_at (clean_data 0 st).2 0 "Annual Salary" 0
  = Some (Float (S754_finite false 6871947673600000 (-37))) ∧
  cell_at (clean_data 0 st).2 0 "Bonus %" 0
  = Some (Float (S754_finite false 5629499534213120 (-49))).
Proof.
  intros st.
  destruct (clean_data_salary_bonus st 0 Sample.employees 0 (clean_data 0 st).2)
    as (f' & Hf' & _ & _ & _ & Hsalary & Hbonus).
  - reflexivity.
  - vm_compute. reflexivity.
  - unfold cell_at. rewrite Hf'. split.
    + apply (Hsalary 0%nat). reflexivity.
    + apply (Hbonus 0%nat). reflexivity.
Defined.

Lemma null_batch_no_upsert_witness :
  let st := Sample.boot Sample.bad_exit_date true in
  let r := index_data "hash_nikhil" "Department" st in
  r.1 = inr () ∧ calls r.2 = calls st ∧ es r.2 = es st ∧
  stdout r.2 = stdout st ++ [null_batch_line].
Proof.
  intros st.
  apply (null_batch_no_upsert "hash_nikhil" "Department" st 2
           (load_batch "Department" st).2 (Sample.cleaned Sample.bad_exit_date)
           "Exit Date" (Series datetime64 [Timestamp 1610668800000000000; NaT])
           NaT).
  - vm_compute. reflexivity.
  - vm_compute. reflexivity.
  - apply dict_get_elem. vm_compute. reflexivity.
  - apply (list_elem_of_lookup_2 _ 1%nat). reflexivity.
  - reflexivity.
Defined.

Lemma load_batch_unique_ids_witness :
  let st := Sample.boot Sample.employees true in
  column_values "Employee ID" Sample.employees
  = [Str "E0001"; Str "E0002"; Str "E0001"] ∧
  ∃ f', heap (load_batch "Department" st).2 !! 2%nat = Some f' ∧
        length (filter (λ x, dup_key x = dup_key (Str "E0001"))
                       (column_values "Employee ID" f')) = 1%nat.
Proof.
  intros st. split; [reflexivity|].
  destruct (load_batch_unique_ids st "Department" 2 (load_batch "Department" st).2)
    as (f0 & f' & Hf0 & Hf' & _ & Hone).
  - vm_compute. reflexivity.
  - exists f'. split; [exact Hf'|]. apply Hone.
    injection Hf0 as <-. apply (list_elem_of_lookup_2 _ 0%nat). reflexivity.
Defined.

(** The loop of [index_data], run on its own on rows whose second one has
    no identifier: that row is skipped with its diagnostic and the other two
    are sent to the engine. *)
Example index_rows_skips_null_id :
  let st := Sample.boot Sample.missing_id true in
  let r := index_rows "hash_nikhil" (iterrows (Sample.cleaned Sample.missing_id)) st in
  r.1 = inr () ∧
  stdout r.2 = [[Text "Indexed document with Employee ID: "; Subst (Str "E0001")];
                skip_line;
                [Text "Indexed document with Employee ID: "; Subst (Str "E0003")]] ∧
  (λ c, match c with CallIndex _ id _ => Some id | _ => None end) <$> calls r.2
  = [Some (Str "E0001"); Some (Str "E0003")].
Proof. vm_compute. repeat split. Qed.

(** C4. On a file whose second row has no identifier, [index_data] does
    not skip that row and ingest the others, as its loop does when it is
    reached: the batch check comes first and turns the whole file down, so
    that the rows E0001 and E0003 are not ingested and the per-row
    diagnostic is not printed. *)
Lemma null_id_fails_batch :
  let st := Sample.boot Sample.missing_id true in
  let r := index_data "hash_nikhil" "Department" st in
  column_values "Employee ID" (Sample.cleaned Sample.missing_id)
  = [Str "E0001"; NaN; Str "E0003"] ∧
  calls r.2 = [] ∧ stdout r.2 = [null_batch_line] ∧
  ¬ (skip_line ∈ stdout r.2 ∧
     ∃ doc, CallIndex "hash_nikhil" (Str "E0001") doc ∈ calls r.2).
Proof.
  vm_compute. split_and!; [reflexivity..|].
  intros [_ [doc Hdoc]]. by apply elem_of_nil in Hdoc.
Qed.

Lemma null_id_never_upserted_witness :
  let st := Sample.boot Sample.missing_id true in
  let st' := (index_data "hash_nikhil" "Department" st).2 in
  calls st' = calls st ∧ stdout st' = stdout st ++ [null_batch_line].
Proof.
  intros st.
  apply (proj2 (null_id_never_upserted "hash_nikhil" "Department" st) 2%nat
           (load_batch "Department" st).2 (Sample.cleaned Sample.missing_id) NaN).
  - vm_compute. reflexivity.
  - vm_compute. reflexivity.
  - apply (list_elem_of_lookup_2 _ 1%nat). vm_compute. reflexivity.
  - reflexivity.
Defined.

Lemma skip_branch_unreachable_witness :
  let st := Sample.boot Sample.missing_id true in
  (index_data "hash_nikhil" "Department" st).1 = inr () ∧
  stdout (index_data "hash_nikhil" "Department" st).2 = [null_batch_line].
Proof.
  intros st.
  rewrite (proj2 (skip_branch_unreachable "hash_nikhil" "Department" st) 2%nat
             (load_batch "Department" st).2 (Sample.cleaned Sample.missing_id) NaN).
  - split; reflexivity.
  - vm_compute. reflexivity.
  - vm_compute. reflexivity.
  - apply (list_elem_of_lookup_2 _ 1%nat). vm_compute. reflexivity.
  - reflexivity.
Defined.

Lemma clean_data_dates_witness :
  let st := Sample.holding Sample.bad_exit_date in
  cell_at (clean_data 0 st).2 0 "Exit Date" 1 = Some NaT ∧
  (clean_data 0 (Sample.holding Sample.employees)).1 = (clean_data 0 st).1.
Proof.
  intros st.
  destruct (clean_data_dates st 0 Sample.bad_exit_date eq_refl) as [Hnat Hsame].
  split.
  - destruct (Hnat 0%nat (clean_data 0 st).2) as (f' & Hf' & Hcells).
    { vm_compute. reflexivity. }
    unfold cell_at. rewrite Hf'.
    apply (Hcells "Exit Date" 1%nat (Str "still employed")).
    + right. left.
    + reflexivity.
    + reflexivity.
  - apply (Hsame (Sample.holding Sample.employees) Sample.employees eq_refl).
    unfold agree_outside. vm_compute.
    repeat (constructor; [split; [reflexivity|]|]);
      try (intros _; reflexivity); [|constructor].
    intros Hout. exfalso. apply Hout. right. left.
Defined.

(** C6, as stated, fails on the name [John_O'Neil]: the underscore is
    neither alphanumeric nor whitespace, and it is kept. *)
Lemma underscore_survives :
  let r := clean_data 0 (Sample.holding Sample.employees) in
  r.1 = inr 0%nat ∧
  cell_at r.2 0 "Full Name" 0 = Some (Str "John_ONeil") ∧
  Char.is_alnum "_" = false ∧ Char.is_space "_" = false ∧
  string_forall (λ c, Char.is_alnum c || Char.is_space c) "John_ONeil" = false.
Proof. vm_compute. repeat split. Qed.

Lemma clean_data_names_witness :
  let st := Sample.holding Sample.employees in
  cell_at (clean_data 0 st).2 0 "Job Title" 0 = Some (Str "Sr Manager") ∧
  string_forall (λ a, Char.is_word a || Char.is_space a) "Sr Manager" = true.
Proof.
  intros st.
  destruct (clean_data_names st 0 Sample.employees 0 (clean_data 0 st).2)
    as (f' & Hf' & Hcells).
  - reflexivity.
  - vm_compute. reflexivity.
  - destruct (Hcells "Job Title" 0%nat (Str "Sr. Manager")) as [Hcell Hword].
    + right. left.
    + reflexivity.
    + unfold cell_at. rewrite Hf'. split; [exact Hcell|].
      apply Hword. reflexivity.
Defined.

(** C7, as stated, fails: after the call, the object that was passed no
    longer holds what it held. *)
Lemma clean_data_mutates_argument :
  let st := Sample.holding Sample.employees in
  (clean_data 0 st).1 = inr 0%nat ∧
  heap (clean_data 0 st).2 !! 0%nat ≠ heap st !! 0%nat.
Proof. vm_compute. split; [reflexivity|discriminate]. Qed.

Lemma clean_data_in_place_witness :
  let st := Sample.holding Sample.employees in
  heap (clean_data 0 st).2 !! 0%nat
  = Some (run_steps clean_steps Sample.employees).2.
Proof.
  intros st.
  destruct (clean_data_in_place st 0) as (_ & _ & _ & _ & _ & _ & _ & Hobj).
  apply Hobj. reflexivity.
Defined.

Lemma delete_not_found_witness :
  let absent := del_emp_by_id "hash_nikhil" (Str "E02003") Sample.indexed in
  let present := del_emp_by_id "hash_nikhil" (Str "E0002") Sample.indexed in
  let down :=
    del_emp_by_id "hash_nikhil" (Str "E02003")
      (Sample.boot Sample.employees false) in
  absent.1 = inr () ∧
  stdout absent.2 = stdout Sample.indexed ++
    [[Text "Employee ID: "; Subst (Str "E02003"); Text " not found."]] ∧
  present.1 = inr () ∧
  stdout present.2 = stdout Sample.indexed ++
    [[Text "Deleted employee with ID: "; Subst (Str "E0002")]] ∧
  down.1 = inl ConnectionError ∧ stdout down.2 = [].
Proof.
  intros absent present down. subst absent present down.
  destruct (delete_not_found "hash_nikhil" (Str "E02003") Sample.indexed
              (es Sample.indexed)) as (Habsent & _ & _).
  destruct (delete_not_found "hash_nikhil" (Str "E0002") Sample.indexed
              (es_delete "hash_nikhil" (Str "E0002") (es Sample.indexed)).2)
    as (_ & _ & Hpresent).
  destruct (delete_not_found "hash_nikhil" (Str "E02003")
              (Sample.boot Sample.employees false) (Sample.engine false))
    as (_ & Hdown & _).
  rewrite Habsent by (vm_compute; reflexivity).
  rewrite Hpresent by (vm_compute; reflexivity).
  rewrite (Hdown ConnectionError) by (discriminate || reflexivity).
  repeat split.
Defined.

(** C9, as stated, fails: the body sent is a match query, not a term
    query. *)
Lemma search_issues_match_query :
  let st := Sample.indexed in
  let r := search_by_column "hash_nikhil" "Job Title" (Str "Developer") st in
  calls r.2 = calls st ++ [CallSearch "hash_nikhil"
    (PDict [("query", PDict [("match",
       PDict [("Job Title", PVal (Str "Developer"))])])])] ∧
  CallSearch "hash_nikhil" (term_query_body "Job Title" (Str "Developer"))
    ∉ calls r.2.
Proof.
  vm_compute. split; [reflexivity|]. intros Hin.
  repeat (apply elem_of_cons in Hin as [Hin|Hin]; [discriminate Hin|]).
  by apply elem_of_nil in Hin.
Qed.

Lemma search_by_column_match_witness :
  ∃ id source,
    (search_by_column "hash_nikhil" "Full Name" (Str "ann") Sample.indexed).1
    = inr (PList [PDict [("_index", PVal (Str "hash_nikhil")); ("_id", id);
                         ("_source", source)]]) ∧
    subscript source "Full Name" = inr (PVal (Str "Ann Lee")).
Proof.
  eexists _, _. split.
  - erewrite search_by_column_match; [reflexivity|vm_compute; reflexivity..].
  - reflexivity.
Defined.

#[local] Existing Instance Canned.engine.

Lemma employees_three_rows : has_rows 3 Sample.employees.
Proof. repeat constructor. Qed.

Lemma clean_data_keeps_shape_witness :
  let st := Sample.holding Sample.employees in
  ∃ f', heap (clean_data 0 st).2 !! 0%nat = Some f' ∧
        same_shape Sample.employees f' ∧
        dict_get "Department" f' = dict_get "Department" Sample.employees.
Proof.
  intros st.
  destruct (clean_data_keeps_shape st 0 Sample.employees eq_refl)
    as (f' & Hf' & Hshape & Hother).
  exists f'. split_and!; [exact Hf'|exact Hshape|].
  apply Hother. intros Hin. absurd_elem Hin.
Defined.

Lemma clean_data_twice_witness :
  let st1 := (clean_data 0 (Sample.holding Sample.employees)).2 in
  ∃ st2 f1 f2,
    clean_data 0 st1 = (inr 0%nat, st2) ∧
    heap st1 !! 0%nat = Some f1 ∧ heap st2 !! 0%nat = Some f2 ∧
    dict_get "Annual Salary" f2 = dict_get "Annual Salary" f1.
Proof.
  intros st1.
  destruct (clean_data_twice (Sample.holding Sample.employees) 0 0 st1)
    as (st2 & f1 & f2 & Hrun & Hf1 & Hf2 & Hsame).
  - vm_compute. reflexivity.
  - exists st2, f1, f2. split_and!; [exact Hrun|exact Hf1|exact Hf2|].
    apply Hsame. left.
Defined.

Lemma index_data_needs_column_witness :
  (index_data "hash_nikhil" "Employee ID" (Sample.boot Sample.employees true)).1
  = inl (KeyErrorIndex ["Employee ID"]).
Proof.
  destruct (index_data_needs_column "hash_nikhil" "Employee ID"
              (Sample.boot Sample.employees true)) as (_ & _ & _ & _ & Hid).
  - left.
  - apply (Hid Sample.employees).
    + vm_compute. reflexivity.
    + reflexivity.
    + eexists. reflexivity.
Defined.

Lemma index_data_missing_input_witness :
  index_data "hash_nikhil" "Department" (Sample.holding Sample.employees)
  = (inl (FileNotFoundError "employee_data.csv"),
     Sample.holding Sample.employees) ∧
  (index_data "hash_nikhil" "Gender" (Sample.boot Sample.employees true)).1
  = inl (KeyError "['Gender'] not found in axis").
Proof.
  split.
  - apply (index_data_missing_input "hash_nikhil" "Department"
             (Sample.holding Sample.employees)).
    vm_compute. reflexivity.
  - destruct (index_data_missing_input "hash_nikhil" "Gender"
                (Sample.boot Sample.employees true)) as [_ Hcolumn].
    rewrite (Hcolumn Sample.employees).
    + reflexivity.
    + vm_compute. reflexivity.
    + reflexivity.
Defined.

Lemma load_batch_shape_witness :
  let st := Sample.boot Sample.employees true in
  ∃ f', heap (load_batch "Department" st).2 !! 2%nat = Some f' ∧
        f'.*1 = ["Employee ID"; "Full Name"; "Job Title"; "Hire Date";
                 "Annual Salary"; "Bonus %"; "Exit Date"] ∧
        has_rows 2 f'.
Proof.
  intros st.
  destruct (load_batch_shape st "Department" 2 (load_batch "Department" st).2
              Sample.employees 3) as (f' & Hf' & Hnames & Hrows).
  - vm_compute. reflexivity.
  - apply employees_three_rows.
  - vm_compute. reflexivity.
  - exists f'. split_and!; [exact Hf'|exact Hnames|exact Hrows].
Defined.

Lemma index_data_fresh_frames_witness :
  let st := Sample.boot Sample.employees true in
  ∃ rest, heap (index_data "hash_nikhil" "Department" st).2
          = Sample.employees :: rest.
Proof.
  intros st.
  destruct (index_data_fresh_frames "hash_nikhil" "Department" st)
    as (_ & new & Hheap & _ & Hnew).
  destruct (Hnew Sample.employees) as (rest & Hrest & _).
  - vm_compute. reflexivity.
  - exists rest. rewrite Hheap, Hrest. reflexivity.
Defined.

Lemma index_data_upserts_witness :
  let st := Sample.boot Sample.employees true in
  let r := index_data "hash_nikhil" "Department" st in
  stdout r.2 =
    [[Text "Indexed document with Employee ID: "; Subst (Str "E0001")];
     [Text "Indexed document with Employee ID: "; Subst (Str "E0002")]].
Proof.
  intros st r.
  destruct (index_data_upserts "hash_nikhil" "Department" st Sample.employees
              3 2 (load_batch "Department" st).2
              (Sample.cleaned Sample.employees))
    as (k & _ & _ & Hok & _).
  - vm_compute. reflexivity.
  - apply employees_three_rows.
  - vm_compute. reflexivity.
  - vm_compute. reflexivity.
  - vm_compute. reflexivity.
  - destruct Hok as [_ Hout]; [vm_compute; reflexivity|].
    etransitivity; [exact Hout|]. vm_compute. reflexivity.
Defined.

Lemma index_data_distinct_ids_witness :
  let st := Sample.boot Sample.employees true in
  ∃ cs, calls (index_data "hash_nikhil" "Department" st).2 = calls st ++ cs ∧
        NoDup (dup_key <$> omap call_id cs).
Proof.
  intros st.
  apply (index_data_distinct_ids "hash_nikhil" "Department" st
           Sample.employees 3).
  - vm_compute. reflexivity.
  - apply employees_three_rows.
Defined.

Lemma index_data_documents_witness :
  let st := Sample.boot Sample.employees true in
  ∃ cs, calls (index_data "hash_nikhil" "Department" st).2 = calls st ++ cs ∧
    Forall (λ c, ∃ id doc,
              c = CallIndex "hash_nikhil" id doc ∧
              isnull id = false ∧
              subscript doc "Employee ID" = inr (PVal id) ∧
              subscript doc "Department" = inl (KeyError "Department"))
           cs.
Proof.
  intros st.
  apply (index_data_documents "hash_nikhil" "Department" st
           Sample.employees 3).
  - vm_compute. reflexivity.
  - apply employees_three_rows.
Defined.

Lemma index_data_document_kinds_witness :
  let st := Sample.boot Sample.employees true in
  ∃ cs, calls (index_data "hash_nikhil" "Department" st).2 = calls st ++ cs ∧
    Forall (λ c, ∃ id doc,
              c = CallIndex "hash_nikhil" id doc ∧
              (∀ k, k ∈ ["Annual Salary"; "Bonus %"] →
                 ∃ v, subscript doc k = inr v ∧ is_float v) ∧
              (∀ k, k ∈ ["Hire Date"; "Exit Date"] →
                 ∃ v, subscript doc k = inr v ∧ is_timestamp v) ∧
              (∀ k, k ∈ ["Full Name"; "Job Title"] →
                 ∃ v, subscript doc k = inr v ∧ is_clean_text v))
           cs.
Proof.
  intros st.
  apply (index_data_document_kinds "hash_nikhil" "Department" st
           Sample.employees 3).
  - vm_compute. reflexivity.
  - apply employees_three_rows.
Defined.

Lemma unparsable_date_rejects_batch_witness :
  let st := Sample.boot Sample.bad_exit_date true in
  let r := index_data "hash_nikhil" "Department" st in
  r.1 = inr () ∧ calls r.2 = [] ∧ stdout r.2 = [null_batch_line].
Proof.
  intros st r. subst r.
  pose (f1 := default [] (heap (load_batch "Department" st).2 !! 1%nat)).
  pose (f2 := match drop_duplicates "Employee ID" f1 with
              | inr f => f
              | inl _ => []
              end).
  rewrite (unparsable_date_rejects_batch "hash_nikhil" "Department" st
             Sample.bad_exit_date f1 f2
             2 (load_batch "Department" st).2 "Exit Date"
             (Str "still employed")).
  - repeat split.
  - vm_compute. reflexivity.
  - vm_compute. reflexivity.
  - vm_compute. reflexivity.
  - vm_compute. reflexivity.
  - right. left.
  - apply (list_elem_of_lookup_2 _ 1%nat). vm_compute. reflexivity.
  - vm_compute. reflexivity.
Defined.

Lemma create_collection_twice_witness :
  let st := Sample.boot Sample.employees true in
  let r := (create_collection "hash_nikhil";;
            create_collection "hash_nikhil") st in
  r.1 = inr () ∧
  stdout r.2 = [[Text "Collection '"; Subst (Str "hash_nikhil");
                 Text "' created."]].
Proof.
  intros st r. subst r.
  rewrite (create_collection_twice "hash_nikhil" st
             (es_indices_exists "hash_nikhil" (es st)).2
             (es_indices_create "hash_nikhil" mappings (es st)).2
             (es_indices_create "hash_nikhil" mappings (es st)).2).
  - split; reflexivity.
  - vm_compute. reflexivity.
  - vm_compute. reflexivity.
  - vm_compute. reflexivity.
Defined.

Lemma index_rows_trace_witness :
  let st := Sample.boot Sample.missing_id true in
  let rows := iterrows (Sample.cleaned Sample.missing_id) in
  let r := index_rows "hash_nikhil" rows st in
  stdout r.2 = line_of <$> rows ∧ line_of <$> rows !! 1%nat = Some skip_line.
Proof.
  intros st rows r.
  destruct (index_rows_trace "hash_nikhil" rows st r.1 r.2)
    as (n & _ & _ & Hok & _).
  - vm_compute. repeat (constructor; [eexists; reflexivity|]). constructor.
  - apply surjective_pairing.
  - split.
    + apply Hok. vm_compute. reflexivity.
    + vm_compute. reflexivity.
Defined.

Lemma get_dep_facet_buckets_witness :
  let buckets :=
    PList [PDict [("key", PVal (Str "IT")); ("doc_count", PVal (Int 2))]] in
  let response :=
    [("took", PVal (Int 1));
     ("aggregations",
        PDict [("department_count", PDict [("buckets", buckets)])])] in
  (get_dep_facet "hash_nikhil" (Canned.start [inr (PDict response)])).1
  = inr buckets ∧
  (get_dep_facet "hash_nikhil"
     (Canned.start [inr (PDict [("took", PVal (Int 1))])])).1
  = inl (KeyError "aggregations").
Proof.
  intros buckets response. split.
  - destruct (get_dep_facet_buckets "hash_nikhil"
                (Canned.start [inr (PDict response)]) response [])
      as [Hok _]; [reflexivity|].
    erewrite Hok; reflexivity.
  - destruct (get_dep_facet_buckets "hash_nikhil"
                (Canned.start [inr (PDict [("took", PVal (Int 1))])])
                [("took", PVal (Int 1))] []) as [_ Hmissing]; [reflexivity|].
    rewrite Hmissing; reflexivity.
Defined.

Lemma get_emp_count_count_witness :
  (get_emp_count "hash_nikhil" Sample.indexed).1 = inr (PVal (Int 2)).
Proof.
  erewrite get_emp_count_count; [reflexivity|vm_compute; reflexivity..].
Defined.

Lemma query_errors_propagate_witness :
  let st := Sample.boot Sample.employees false in
  (search_by_column "hash_nikhil" "Department" (Str "IT") st).1
  = inl ConnectionError ∧
  (get_emp_count "hash_nikhil" st).1 = inl ConnectionError ∧
  (get_dep_facet "hash_nikhil" st).1 = inl ConnectionError.
Proof.
  intros st.
  destruct (query_errors_propagate "hash_nikhil" "Department" (Str "IT") st
              ConnectionError (es st)) as (Hsearch & Hcount & Hfacet).
  rewrite Hsearch, Hcount, Hfacet by reflexivity. repeat split.
Defined.

Lemma clean_data_stops_at_failure_witness :
  let f := [Sample.text "Annual Salary" ["$50,000"; "n/a"]] in
  let g := [Sample.text "Annual Salary" ["$50,000"]] in
  (∃ e, clean_data 0 (Sample.holding f) = (inl e, Sample.holding f)) ∧
  (clean_data 0 (Sample.holding g)).1 = inl (KeyError "Bonus %") ∧
  cell_at (clean_data 0 (Sample.holding g)).2 0 "Annual Salary" 0
  = Some (Float (S754_finite false 6871947673600000 (-37))).
Proof.
  intros f g. split.
  - destruct (clean_data_stops_at_failure (Sample.holding f) 0 f eq_refl)
      as (_ & Hbad & _).
    apply (Hbad (Series object [Str "$50,000"; Str "n/a"]) "n/a").
    + reflexivity.
    + right. left.
    + vm_compute. reflexivity.
  - destruct (clean_data_stops_at_failure (Sample.holding g) 0 g eq_refl)
      as (_ & _ & Hbonus).
    rewrite (Hbonus (Series object [Str "$50,000"])
               (Series float64 [Float (S754_finite false 6871947673600000 (-37))])).
    + split; reflexivity.
    + reflexivity.
    + vm_compute. reflexivity.
    + reflexivity.
Defined.
